(** * Health reporting of the Cilium agent: status probes, aggregate store
      and rollup (daemon/cmd/status.go)

    The development embeds the status part of the daemon:
    - the version memoizer [k8sVersion] and [getK8sStatus];
    - the update sinks ([OnStatusUpdate]) registered by
      [startStatusCollector], which fill [d.statusResponse];
    - [getStatus], which snapshots the aggregate (full or brief) and rolls
      it up into the [Cilium] verdict;
    - the interval policy of the kubernetes probe.

    Pointers to structures that the daemon never mutates in place are
    embedded as [option] values ([None] is the nil pointer).  The one
    structure that is mutated through a pointer, [models.ClusterStatus]
    (its [CiliumHealth] member is assigned in place by two sinks), lives in
    an explicit heap of cells, so that aliasing between the live store, the
    probe results and the snapshots is visible. *)

From Stdlib Require Import ZArith Lia.
From stdpp Require Import gmap strings list fin_maps.

(** ** Package models

    The declarations of package models (generated from the API
    description) are not among the sources; the structures below have the
    members that the daemon reads or assigns in the source. *)

(** Modelled from the spec: the constants of the state enumeration are
    declared in package models.  A state is "one of {OK, Warning, Failure,
    Disabled}"; the member is a string in the source, which compares it
    with [!=] and [==], so the constants are four distinct strings. *)
Definition StatusStateOk : string := "Ok".
Definition StatusStateWarning : string := "Warning".
Definition StatusStateFailure : string := "Failure".
Definition StatusStateDisabled : string := "Disabled".

(** Modelled from the spec: a subsystem hands over an "opaque
    subsystem-specific payload".  The structures of package models of which
    the daemon only passes pointers around are kept as an uninterpreted
    body. *)
Definition Body := string.

(** Modelled from the spec: [models.Status] is the "{state; message}" pair
    of a verdict. *)
Module Status.
Record t := mk { State : string; Msg : string }.
End Status.

Module K8sStatus.
Record t := mk { State : string; Msg : string; K8sAPIVersions : list string }.
End K8sStatus.

Module ControllerStatusStatus.
Record t := mk { LastFailureMsg : string }.
End ControllerStatusStatus.

Module ControllerStatus.
Record t := mk { Name : string; Status : option ControllerStatusStatus.t }.
End ControllerStatus.

(** [models.ControllerStatuses] is a slice of pointers to controller
    statuses.  The slices come from [controller.GetGlobalStatus], which
    builds every entry; entries are embedded as values. *)
Definition ControllerStatuses := list ControllerStatus.t.

(** Addresses of [models.ClusterStatus] cells. *)
Definition loc := positive.

Module ClusterStatus.
Record t := mk { Self : string; CiliumHealth : option Status.t }.
(** [new(models.ClusterStatus)], also [&models.ClusterStatus{}] *)
Definition zero : t := {| Self := ""; CiliumHealth := None |}.
Definition set_CiliumHealth (v : option Status.t) (c : t) : t :=
  {| Self := Self c; CiliumHealth := v |}.
End ClusterStatus.

Abbreviation Heap := (gmap loc ClusterStatus.t).

(** Reading through a pointer.  Go has no dangling pointers; a cell that
    was never stored reads as the zero structure. *)
Definition load (l : loc) (h : Heap) : ClusterStatus.t :=
  default ClusterStatus.zero (h !! l).

Definition store (l : loc) (c : ClusterStatus.t) (h : Heap) : Heap := <[l := c]> h.

(** Allocation returns an address that is not in use. *)
Definition alloc (h : Heap) : loc := fresh (dom h).

(** Modelled from the spec: [models.StatusResponse] is the aggregate state,
    "one field per monitored subsystem ... plus a derived stale mapping
    (probe name -> run-start timestamp)".  The members are those that occur
    in the source; a pointer member is [None] when nil, and [Cluster] is the
    address of a cell. *)
Record StatusResponse := mkStatusResponse {
  AttachMode : string;
  AuthCertificateProvider : option Status.t;
  BandwidthManager : option Body;
  BpfMaps : option Body;
  Cilium : option Status.t;
  ClockSource : option Body;
  Cluster : option loc;
  ClusterMesh : option Body;
  CniChaining : option Body;
  CniFile : option Status.t;
  ContainerRuntime : option Status.t;
  Controllers : option ControllerStatuses;
  DatapathMode : string;
  Encryption : option Body;
  HostFirewall : option Body;
  Hubble : option Body;
  IdentityRange : option Body;
  Ipam : option Body;
  IPV4BigTCP : option Body;
  IPV6BigTCP : option Body;
  KubeProxyReplacement : option Body;
  Kubernetes : option K8sStatus.t;
  Kvstore : option Status.t;
  Masquerading : option Body;
  NodeMonitor : option Body;
  Proxy : option Body;
  Routing : option Body;
  Srv6 : option Body;
  Stale : gmap string Z
}.

Definition set_AuthCertificateProvider (v : option Status.t) (sr : StatusResponse) : StatusResponse :=
  {| AttachMode := AttachMode sr; AuthCertificateProvider := v;
     BandwidthManager := BandwidthManager sr; BpfMaps := BpfMaps sr;
     Cilium := Cilium sr; ClockSource := ClockSource sr;
     Cluster := Cluster sr; ClusterMesh := ClusterMesh sr;
     CniChaining := CniChaining sr; CniFile := CniFile sr;
     ContainerRuntime := ContainerRuntime sr; Controllers := Controllers sr;
     DatapathMode := DatapathMode sr; Encryption := Encryption sr;
     HostFirewall := HostFirewall sr; Hubble := Hubble sr;
     IdentityRange := IdentityRange sr; Ipam := Ipam sr;
     IPV4BigTCP := IPV4BigTCP sr; IPV6BigTCP := IPV6BigTCP sr;
     KubeProxyReplacement := KubeProxyReplacement sr;
     Kubernetes := Kubernetes sr; Kvstore := Kvstore sr;
     Masquerading := Masquerading sr; NodeMonitor := NodeMonitor sr;
     Proxy := Proxy sr; Routing := Routing sr; Srv6 := Srv6 sr;
     Stale := Stale sr |}.

Definition set_Cilium (v : option Status.t) (sr : StatusResponse) : StatusResponse :=
  {| AttachMode := AttachMode sr;
     AuthCertificateProvider := AuthCertificateProvider sr;
     BandwidthManager := BandwidthManager sr; BpfMaps := BpfMaps sr;
     Cilium := v; ClockSource := ClockSource sr; Cluster := Cluster sr;
     ClusterMesh := ClusterMesh sr; CniChaining := CniChaining sr;
     CniFile := CniFile sr; ContainerRuntime := ContainerRuntime sr;
     Controllers := Controllers sr; DatapathMode := DatapathMode sr;
     Encryption := Encryption sr; HostFirewall := HostFirewall sr;
     Hubble := Hubble sr; IdentityRange := IdentityRange sr; Ipam := Ipam sr;
     IPV4BigTCP := IPV4BigTCP sr; IPV6BigTCP := IPV6BigTCP sr;
     KubeProxyReplacement := KubeProxyReplacement sr;
     Kubernetes := Kubernetes sr; Kvstore := Kvstore sr;
     Masquerading := Masquerading sr; NodeMonitor := NodeMonitor sr;
     Proxy := Proxy sr; Routing := Routing sr; Srv6 := Srv6 sr;
     Stale := Stale sr |}.

Definition set_Cluster (v : option loc) (sr : StatusResponse) : StatusResponse :=
  {| AttachMode := AttachMode sr;
     AuthCertificateProvider := AuthCertificateProvider sr;
     BandwidthManager := BandwidthManager sr; BpfMaps := BpfMaps sr;
     Cilium := Cilium sr; ClockSource := ClockSource sr; Cluster := v;
     ClusterMesh := ClusterMesh sr; CniChaining := CniChaining sr;
     CniFile := CniFile sr; ContainerRuntime := ContainerRuntime sr;
     Controllers := Controllers sr; DatapathMode := DatapathMode sr;
     Encryption := Encryption sr; HostFirewall := HostFirewall sr;
     Hubble := Hubble sr; IdentityRange := IdentityRange sr; Ipam := Ipam sr;
     IPV4BigTCP := IPV4BigTCP sr; IPV6BigTCP := IPV6BigTCP sr;
     KubeProxyReplacement := KubeProxyReplacement sr;
     Kubernetes := Kubernetes sr; Kvstore := Kvstore sr;
     Masquerading := Masquerading sr; NodeMonitor := NodeMonitor sr;
     Proxy := Proxy sr; Routing := Routing sr; Srv6 := Srv6 sr;
     Stale := Stale sr |}.

Definition set_ClusterMesh (v : option Body) (sr : StatusResponse) : StatusResponse :=
  {| AttachMode := AttachMode sr;
     AuthCertificateProvider := AuthCertificateProvider sr;
     BandwidthManager := BandwidthManager sr; BpfMaps := BpfMaps sr;
     Cilium := Cilium sr; ClockSource := ClockSource sr;
     Cluster := Cluster sr; ClusterMesh := v; CniChaining := CniChaining sr;
     CniFile := CniFile sr; ContainerRuntime := ContainerRuntime sr;
     Controllers := Controllers sr; DatapathMode := DatapathMode sr;
     Encryption := Encryption sr; HostFirewall := HostFirewall sr;
     Hubble := Hubble sr; IdentityRange := IdentityRange sr; Ipam := Ipam sr;
     IPV4BigTCP := IPV4BigTCP sr; IPV6BigTCP := IPV6BigTCP sr;
     KubeProxyReplacement := KubeProxyReplacement sr;
     Kubernetes := Kubernetes sr; Kvstore := Kvstore sr;
     Masquerading := Masquerading sr; NodeMonitor := NodeMonitor sr;
     Proxy := Proxy sr; Routing := Routing sr; Srv6 := Srv6 sr;
     Stale := Stale sr |}.

Definition set_CniFile (v : option Status.t) (sr : StatusResponse) : StatusResponse :=
  {| AttachMode := AttachMode sr;
     AuthCertificateProvider := AuthCertificateProvider sr;
     BandwidthManager := BandwidthManager sr; BpfMaps := BpfMaps sr;
     Cilium := Cilium sr; ClockSource := ClockSource sr;
     Cluster := Cluster sr; ClusterMesh := ClusterMesh sr;
     CniChaining := CniChaining sr; CniFile := v;
     ContainerRuntime := ContainerRuntime sr; Controllers := Controllers sr;
     DatapathMode := DatapathMode sr; Encryption := Encryption sr;
     HostFirewall := HostFirewall sr; Hubble := Hubble sr;
     IdentityRange := IdentityRange sr; Ipam := Ipam sr;
     IPV4BigTCP := IPV4BigTCP sr; IPV6BigTCP := IPV6BigTCP sr;
     KubeProxyReplacement := KubeProxyReplacement sr;
     Kubernetes := Kubernetes sr; Kvstore := Kvstore sr;
     Masquerading := Masquerading sr; NodeMonitor := NodeMonitor sr;
     Proxy := Proxy sr; Routing := Routing sr; Srv6 := Srv6 sr;
     Stale := Stale sr |}.

Definition set_Controllers (v : option ControllerStatuses) (sr : StatusResponse) : StatusResponse :=
  {| AttachMode := AttachMode sr;
     AuthCertificateProvider := AuthCertificateProvider sr;
     BandwidthManager := BandwidthManager sr; BpfMaps := BpfMaps sr;
     Cilium := Cilium sr; ClockSource := ClockSource sr;
     Cluster := Cluster sr; ClusterMesh := ClusterMesh sr;
     CniChaining := CniChaining sr; CniFile := CniFile sr;
     ContainerRuntime := ContainerRuntime sr; Controllers := v;
     DatapathMode := DatapathMode sr; Encryption := Encryption sr;
     HostFirewall := HostFirewall sr; Hubble := Hubble sr;
     IdentityRange := IdentityRange sr; Ipam := Ipam sr;
     IPV4BigTCP := IPV4BigTCP sr; IPV6BigTCP := IPV6BigTCP sr;
     KubeProxyReplacement := KubeProxyReplacement sr;
     Kubernetes := Kubernetes sr; Kvstore := Kvstore sr;
     Masquerading := Masquerading sr; NodeMonitor := NodeMonitor sr;
     Proxy := Proxy sr; Routing := Routing sr; Srv6 := Srv6 sr;
     Stale := Stale sr |}.

Definition set_Encryption (v : option Body) (sr : StatusResponse) : StatusResponse :=
  {| AttachMode := AttachMode sr;
     AuthCertificateProvider := AuthCertificateProvider sr;
     BandwidthManager := BandwidthManager sr; BpfMaps := BpfMaps sr;
     Cilium := Cilium sr; ClockSource := ClockSource sr;
     Cluster := Cluster sr; ClusterMesh := ClusterMesh sr;
     CniChaining := CniChaining sr; CniFile := CniFile sr;
     ContainerRuntime := ContainerRuntime sr; Controllers := Controllers sr;
     DatapathMode := DatapathMode sr; Encryption := v;
     HostFirewall := HostFirewall sr; Hubble := Hubble sr;
     IdentityRange := IdentityRange sr; Ipam := Ipam sr;
     IPV4BigTCP := IPV4BigTCP sr; IPV6BigTCP := IPV6BigTCP sr;
     KubeProxyReplacement := KubeProxyReplacement sr;
     Kubernetes := Kubernetes sr; Kvstore := Kvstore sr;
     Masquerading := Masquerading sr; NodeMonitor := NodeMonitor sr;
     Proxy := Proxy sr; Routing := Routing sr; Srv6 := Srv6 sr;
     Stale := Stale sr |}.

Definition set_Hubble (v : option Body) (sr : StatusResponse) : StatusResponse :=
  {| AttachMode := AttachMode sr;
     AuthCertificateProvider := AuthCertificateProvider sr;
     BandwidthManager := BandwidthManager sr; BpfMaps := BpfMaps sr;
     Cilium := Cilium sr; ClockSource := ClockSource sr;
     Cluster := Cluster sr; ClusterMesh := ClusterMesh sr;
     CniChaining := CniChaining sr; CniFile := CniFile sr;
     ContainerRuntime := ContainerRuntime sr; Controllers := Controllers sr;
     DatapathMode := DatapathMode sr; Encryption := Encryption sr;
     HostFirewall := HostFirewall sr; Hubble := v;
     IdentityRange := IdentityRange sr; Ipam := Ipam sr;
     IPV4BigTCP := IPV4BigTCP sr; IPV6BigTCP := IPV6BigTCP sr;
     KubeProxyReplacement := KubeProxyReplacement sr;
     Kubernetes := Kubernetes sr; Kvstore := Kvstore sr;
     Masquerading := Masquerading sr; NodeMonitor := NodeMonitor sr;
     Proxy := Proxy sr; Routing := Routing sr; Srv6 := Srv6 sr;
     Stale := Stale sr |}.

Definition set_Ipam (v : option Body) (sr : StatusResponse) : StatusResponse :=
  {| AttachMode := AttachMode sr;
     AuthCertificateProvider := AuthCertificateProvider sr;
     BandwidthManager := BandwidthManager sr; BpfMaps := BpfMaps sr;
     Cilium := Cilium sr; ClockSource := ClockSource sr;
     Cluster := Cluster sr; ClusterMesh := ClusterMesh sr;
     CniChaining := CniChaining sr; CniFile := CniFile sr;
     ContainerRuntime := ContainerRuntime sr; Controllers := Controllers sr;
     DatapathMode := DatapathMode sr; Encryption := Encryption sr;
     HostFirewall := HostFirewall sr; Hubble := Hubble sr;
     IdentityRange := IdentityRange sr; Ipam := v;
     IPV4BigTCP := IPV4BigTCP sr; IPV6BigTCP := IPV6BigTCP sr;
     KubeProxyReplacement := KubeProxyReplacement sr;
     Kubernetes := Kubernetes sr; Kvstore := Kvstore sr;
     Masquerading := Masquerading sr; NodeMonitor := NodeMonitor sr;
     Proxy := Proxy sr; Routing := Routing sr; Srv6 := Srv6 sr;
     Stale := Stale sr |}.

Definition set_KubeProxyReplacement (v : option Body) (sr : StatusResponse) : StatusResponse :=
  {| AttachMode := AttachMode sr;
     AuthCertificateProvider := AuthCertificateProvider sr;
     BandwidthManager := BandwidthManager sr; BpfMaps := BpfMaps sr;
     Cilium := Cilium sr; ClockSource := ClockSource sr;
     Cluster := Cluster sr; ClusterMesh := ClusterMesh sr;
     CniChaining := CniChaining sr; CniFile := CniFile sr;
     ContainerRuntime := ContainerRuntime sr; Controllers := Controllers sr;
     DatapathMode := DatapathMode sr; Encryption := Encryption sr;
     HostFirewall := HostFirewall sr; Hubble := Hubble sr;
     IdentityRange := IdentityRange sr; Ipam := Ipam sr;
     IPV4BigTCP := IPV4BigTCP sr; IPV6BigTCP := IPV6BigTCP sr;
     KubeProxyReplacement := v; Kubernetes := Kubernetes sr;
     Kvstore := Kvstore sr; Masquerading := Masquerading sr;
     NodeMonitor := NodeMonitor sr; Proxy := Proxy sr; Routing := Routing sr;
     Srv6 := Srv6 sr; Stale := Stale sr |}.

Definition set_Kubernetes (v : option K8sStatus.t) (sr : StatusResponse) : StatusResponse :=
  {| AttachMode := AttachMode sr;
     AuthCertificateProvider := AuthCertificateProvider sr;
     BandwidthManager := BandwidthManager sr; BpfMaps := BpfMaps sr;
     Cilium := Cilium sr; ClockSource := ClockSource sr;
     Cluster := Cluster sr; ClusterMesh := ClusterMesh sr;
     CniChaining := CniChaining sr; CniFile := CniFile sr;
     ContainerRuntime := ContainerRuntime sr; Controllers := Controllers sr;
     DatapathMode := DatapathMode sr; Encryption := Encryption sr;
     HostFirewall := HostFirewall sr; Hubble := Hubble sr;
     IdentityRange := IdentityRange sr; Ipam := Ipam sr;
     IPV4BigTCP := IPV4BigTCP sr; IPV6BigTCP := IPV6BigTCP sr;
     KubeProxyReplacement := KubeProxyReplacement sr; Kubernetes := v;
     Kvstore := Kvstore sr; Masquerading := Masquerading sr;
     NodeMonitor := NodeMonitor sr; Proxy := Proxy sr; Routing := Routing sr;
     Srv6 := Srv6 sr; Stale := Stale sr |}.

Definition set_Kvstore (v : option Status.t) (sr : StatusResponse) : StatusResponse :=
  {| AttachMode := AttachMode sr;
     AuthCertificateProvider := AuthCertificateProvider sr;
     BandwidthManager := BandwidthManager sr; BpfMaps := BpfMaps sr;
     Cilium := Cilium sr; ClockSource := ClockSource sr;
     Cluster := Cluster sr; ClusterMesh := ClusterMesh sr;
     CniChaining := CniChaining sr; CniFile := CniFile sr;
     ContainerRuntime := ContainerRuntime sr; Controllers := Controllers sr;
     DatapathMode := DatapathMode sr; Encryption := Encryption sr;
     HostFirewall := HostFirewall sr; Hubble := Hubble sr;
     IdentityRange := IdentityRange sr; Ipam := Ipam sr;
     IPV4BigTCP := IPV4BigTCP sr; IPV6BigTCP := IPV6BigTCP sr;
     KubeProxyReplacement := KubeProxyReplacement sr;
     Kubernetes := Kubernetes sr; Kvstore := v;
     Masquerading := Masquerading sr; NodeMonitor := NodeMonitor sr;
     Proxy := Proxy sr; Routing := Routing sr; Srv6 := Srv6 sr;
     Stale := Stale sr |}.

Definition set_NodeMonitor (v : option Body) (sr : StatusResponse) : StatusResponse :=
  {| AttachMode := AttachMode sr;
     AuthCertificateProvider := AuthCertificateProvider sr;
     BandwidthManager := BandwidthManager sr; BpfMaps := BpfMaps sr;
     Cilium := Cilium sr; ClockSource := ClockSource sr;
     Cluster := Cluster sr; ClusterMesh := ClusterMesh sr;
     CniChaining := CniChaining sr; CniFile := CniFile sr;
     ContainerRuntime := ContainerRuntime sr; Controllers := Controllers sr;
     DatapathMode := DatapathMode sr; Encryption := Encryption sr;
     HostFirewall := HostFirewall sr; Hubble := Hubble sr;
     IdentityRange := IdentityRange sr; Ipam := Ipam sr;
     IPV4BigTCP := IPV4BigTCP sr; IPV6BigTCP := IPV6BigTCP sr;
     KubeProxyReplacement := KubeProxyReplacement sr;
     Kubernetes := Kubernetes sr; Kvstore := Kvstore sr;
     Masquerading := Masquerading sr; NodeMonitor := v; Proxy := Proxy sr;
     Routing := Routing sr; Srv6 := Srv6 sr; Stale := Stale sr |}.

Definition set_Proxy (v : option Body) (sr : StatusResponse) : StatusResponse :=
  {| AttachMode := AttachMode sr;
     AuthCertificateProvider := AuthCertificateProvider sr;
     BandwidthManager := BandwidthManager sr; BpfMaps := BpfMaps sr;
     Cilium := Cilium sr; ClockSource := ClockSource sr;
     Cluster := Cluster sr; ClusterMesh := ClusterMesh sr;
     CniChaining := CniChaining sr; CniFile := CniFile sr;
     ContainerRuntime := ContainerRuntime sr; Controllers := Controllers sr;
     DatapathMode := DatapathMode sr; Encryption := Encryption sr;
     HostFirewall := HostFirewall sr; Hubble := Hubble sr;
     IdentityRange := IdentityRange sr; Ipam := Ipam sr;
     IPV4BigTCP := IPV4BigTCP sr; IPV6BigTCP := IPV6BigTCP sr;
     KubeProxyReplacement := KubeProxyReplacement sr;
     Kubernetes := Kubernetes sr; Kvstore := Kvstore sr;
     Masquerading := Masquerading sr; NodeMonitor := NodeMonitor sr;
     Proxy := v; Routing := Routing sr; Srv6 := Srv6 sr; Stale := Stale sr |}.

Definition set_Stale (v : gmap string Z) (sr : StatusResponse) : StatusResponse :=
  {| AttachMode := AttachMode sr;
     AuthCertificateProvider := AuthCertificateProvider sr;
     BandwidthManager := BandwidthManager sr; BpfMaps := BpfMaps sr;
     Cilium := Cilium sr; ClockSource := ClockSource sr;
     Cluster := Cluster sr; ClusterMesh := ClusterMesh sr;
     CniChaining := CniChaining sr; CniFile := CniFile sr;
     ContainerRuntime := ContainerRuntime sr; Controllers := Controllers sr;
     DatapathMode := DatapathMode sr; Encryption := Encryption sr;
     HostFirewall := HostFirewall sr; Hubble := Hubble sr;
     IdentityRange := IdentityRange sr; Ipam := Ipam sr;
     IPV4BigTCP := IPV4BigTCP sr; IPV6BigTCP := IPV6BigTCP sr;
     KubeProxyReplacement := KubeProxyReplacement sr;
     Kubernetes := Kubernetes sr; Kvstore := Kvstore sr;
     Masquerading := Masquerading sr; NodeMonitor := NodeMonitor sr;
     Proxy := Proxy sr; Routing := Routing sr; Srv6 := Srv6 sr; Stale := v |}.

(** The zero value of [models.StatusResponse]. *)
Definition zeroStatusResponse : StatusResponse :=
  {| AttachMode := ""; AuthCertificateProvider := None;
     BandwidthManager := None; BpfMaps := None; Cilium := None;
     ClockSource := None; Cluster := None; ClusterMesh := None;
     CniChaining := None; CniFile := None; ContainerRuntime := None;
     Controllers := None; DatapathMode := ""; Encryption := None;
     HostFirewall := None; Hubble := None; IdentityRange := None;
     Ipam := None; IPV4BigTCP := None; IPV6BigTCP := None;
     KubeProxyReplacement := None; Kubernetes := None; Kvstore := None;
     Masquerading := None; NodeMonitor := None; Proxy := None;
     Routing := None; Srv6 := None; Stale := ∅ |}.

(** ** Package status: what a probe run hands to its update sink *)

(** The dynamic value of [status.Status.Data] (an [interface{}]): the nil
    interface, or a value of some concrete type.  A pointer type may hold
    the nil pointer; a slice type may hold the nil slice. *)
Inductive Data :=
| DataNil
| DataStatus (p : option Status.t)
| DataK8sStatus (p : option K8sStatus.t)
| DataIPAMStatus (p : option Body)
| DataMonitorStatus (p : option Body)
| DataClusterStatus (p : option loc)
| DataProxyStatus (p : option Body)
| DataControllerStatuses (s : option ControllerStatuses)
| DataClusterMeshStatus (p : option Body)
| DataHubbleStatus (p : option Body)
| DataEncryptionStatus (p : option Body)
| DataKubeProxyReplacement (p : option Body)
| DataOther (typeName : string).

(** Modelled from the spec: [status.Status] is the "StatusResult: {value:
    opaque subsystem-specific payload; error: optional}" that the collector
    passes to a sink. *)
Module status.
(** [Err] holds the text of the error, [None] is the nil error. *)
Record Status := mk { Data : Data; Err : option string }.
End status.

(** ** The daemon *)

Record Daemon := mkDaemon {
  statusResponse : StatusResponse;
  (** [d.clientset.IsEnabled()] *)
  clientset_IsEnabled : bool;
  (** [d.ciliumHealth != nil] *)
  ciliumHealth : bool
}.

Definition with_statusResponse (f : StatusResponse → StatusResponse) (d : Daemon) : Daemon :=
  {| statusResponse := f (statusResponse d);
     clientset_IsEnabled := clientset_IsEnabled d;
     ciliumHealth := ciliumHealth d |}.

(** ** The probes registered by [startStatusCollector] *)

Inductive Probe :=
| kvstore | kubernetes | ipam | node_monitor | cluster | cilium_health
| l7_proxy | controllers | clustermesh | hubble | encryption
| kube_proxy_replacement | auth_cert_provider | cni_config.

Definition Name (p : Probe) : string :=
  match p with
  | kvstore => "kvstore" | kubernetes => "kubernetes" | ipam => "ipam"
  | node_monitor => "node-monitor" | cluster => "cluster"
  | cilium_health => "cilium-health" | l7_proxy => "l7-proxy"
  | controllers => "controllers" | clustermesh => "clustermesh"
  | hubble => "hubble" | encryption => "encryption"
  | kube_proxy_replacement => "kube-proxy-replacement"
  | auth_cert_provider => "auth-cert-provider" | cni_config => "cni-config"
  end.

(** The slice literal [probes], in source order. *)
Definition probes : list Probe :=
  [kvstore; kubernetes; ipam; node_monitor; cluster; cilium_health; l7_proxy;
   controllers; clustermesh; hubble; encryption; kube_proxy_replacement;
   auth_cert_provider; cni_config].

#[global] Instance Probe_eq_dec : EqDecision Probe.
Proof. solve_decision. Defined.

(** *** Update sinks

    Every sink runs under [d.statusCollectMutex] and is therefore one
    atomic step on the daemon and the heap.  The result is [None] when the
    Go code panics. *)

Definition failure (err : string) : Status.t :=
  {| Status.State := StatusStateFailure; Status.Msg := err |}.

Definition OnStatusUpdate_kvstore (st : status.Status) (d : Daemon) (h : Heap)
    : option (Daemon * Heap) :=
  match status.Err st with
  | Some err => Some (with_statusResponse (set_Kvstore (Some (failure err))) d, h)
  | None =>
      match status.Data st with
      | DataStatus kv => Some (with_statusResponse (set_Kvstore kv) d, h)
      | _ => Some (d, h)
      end
  end.

Definition OnStatusUpdate_kubernetes (st : status.Status) (d : Daemon) (h : Heap)
    : option (Daemon * Heap) :=
  match status.Err st with
  | Some err =>
      Some (with_statusResponse
              (set_Kubernetes
                 (Some {| K8sStatus.State := StatusStateFailure;
                          K8sStatus.Msg := err;
                          K8sStatus.K8sAPIVersions := [] |})) d, h)
  | None =>
      match status.Data st with
      | DataK8sStatus s => Some (with_statusResponse (set_Kubernetes s) d, h)
      | _ => Some (d, h)
      end
  end.

Definition OnStatusUpdate_ipam (st : status.Status) (d : Daemon) (h : Heap)
    : option (Daemon * Heap) :=
  match status.Err st with
  | None =>
      match status.Data st with
      | DataIPAMStatus s => Some (with_statusResponse (set_Ipam s) d, h)
      | _ => Some (d, h)
      end
  | Some _ => Some (d, h)
  end.

Definition OnStatusUpdate_node_monitor (st : status.Status) (d : Daemon) (h : Heap)
    : option (Daemon * Heap) :=
  match status.Err st with
  | None =>
      match status.Data st with
      | DataMonitorStatus s => Some (with_statusResponse (set_NodeMonitor s) d, h)
      | _ => Some (d, h)
      end
  | Some _ => Some (d, h)
  end.

(** The result [s] is a pointer: the sink assigns the member of the cell it
    points to, then publishes the pointer.  With a nil [s] of the expected
    type and a cluster status already present, [s.CiliumHealth] dereferences
    nil. *)
Definition OnStatusUpdate_cluster (st : status.Status) (d : Daemon) (h : Heap)
    : option (Daemon * Heap) :=
  match status.Err st with
  | None =>
      match status.Data st with
      | DataClusterStatus s =>
          match Cluster (statusResponse d) with
          | Some live =>
              match s with
              | Some l =>
                  let h' :=
                    store l (ClusterStatus.set_CiliumHealth
                               (ClusterStatus.CiliumHealth (load live h))
                               (load l h)) h in
                  Some (with_statusResponse (set_Cluster (Some l)) d, h')
              | None => None
              end
          | None => Some (with_statusResponse (set_Cluster s) d, h)
          end
      | _ => Some (d, h)
      end
  | Some _ => Some (d, h)
  end.

Definition OnStatusUpdate_cilium_health (st : status.Status) (d : Daemon) (h : Heap)
    : option (Daemon * Heap) :=
  if negb (ciliumHealth d) then Some (d, h)
  else
    let '(d1, h1, l) :=
      match Cluster (statusResponse d) with
      | Some l => (d, h, l)
      | None =>
          let l := alloc h in
          (with_statusResponse (set_Cluster (Some l)) d,
           store l ClusterStatus.zero h, l)
      end in
    match status.Err st with
    | Some err =>
        Some (d1, store l (ClusterStatus.set_CiliumHealth (Some (failure err))
                             (load l h1)) h1)
    | None =>
        match status.Data st with
        | DataStatus s =>
            Some (d1, store l (ClusterStatus.set_CiliumHealth s (load l h1)) h1)
        | _ => Some (d1, h1)
        end
    end.

Definition OnStatusUpdate_l7_proxy (st : status.Status) (d : Daemon) (h : Heap)
    : option (Daemon * Heap) :=
  match status.Err st with
  | None =>
      match status.Data st with
      | DataProxyStatus s => Some (with_statusResponse (set_Proxy s) d, h)
      | _ => Some (d, h)
      end
  | Some _ => Some (d, h)
  end.

Definition OnStatusUpdate_controllers (st : status.Status) (d : Daemon) (h : Heap)
    : option (Daemon * Heap) :=
  match status.Err st with
  | None =>
      match status.Data st with
      | DataControllerStatuses s => Some (with_statusResponse (set_Controllers s) d, h)
      | _ => Some (d, h)
      end
  | Some _ => Some (d, h)
  end.

Definition OnStatusUpdate_clustermesh (st : status.Status) (d : Daemon) (h : Heap)
    : option (Daemon * Heap) :=
  match status.Err st with
  | None =>
      match status.Data st with
      | DataClusterMeshStatus s => Some (with_statusResponse (set_ClusterMesh s) d, h)
      | _ => Some (d, h)
      end
  | Some _ => Some (d, h)
  end.

Definition OnStatusUpdate_hubble (st : status.Status) (d : Daemon) (h : Heap)
    : option (Daemon * Heap) :=
  match status.Err st with
  | None =>
      match status.Data st with
      | DataHubbleStatus s => Some (with_statusResponse (set_Hubble s) d, h)
      | _ => Some (d, h)
      end
  | Some _ => Some (d, h)
  end.

Definition OnStatusUpdate_encryption (st : status.Status) (d : Daemon) (h : Heap)
    : option (Daemon * Heap) :=
  match status.Err st with
  | None =>
      match status.Data st with
      | DataEncryptionStatus s => Some (with_statusResponse (set_Encryption s) d, h)
      | _ => Some (d, h)
      end
  | Some _ => Some (d, h)
  end.

Definition OnStatusUpdate_kube_proxy_replacement (st : status.Status) (d : Daemon)
    (h : Heap) : option (Daemon * Heap) :=
  match status.Err st with
  | None =>
      match status.Data st with
      | DataKubeProxyReplacement s =>
          Some (with_statusResponse (set_KubeProxyReplacement s) d, h)
      | _ => Some (d, h)
      end
  | Some _ => Some (d, h)
  end.

Definition OnStatusUpdate_auth_cert_provider (st : status.Status) (d : Daemon)
    (h : Heap) : option (Daemon * Heap) :=
  match status.Err st with
  | None =>
      match status.Data st with
      | DataStatus s => Some (with_statusResponse (set_AuthCertificateProvider s) d, h)
      | _ => Some (d, h)
      end
  | Some _ => Some (d, h)
  end.

Definition OnStatusUpdate_cni_config (st : status.Status) (d : Daemon) (h : Heap)
    : option (Daemon * Heap) :=
  match status.Err st with
  | None =>
      match status.Data st with
      | DataStatus s => Some (with_statusResponse (set_CniFile s) d, h)
      | _ => Some (d, h)
      end
  | Some _ => Some (d, h)
  end.

(** The [OnStatusUpdate] member of each entry of [probes]. *)
Definition OnStatusUpdate (p : Probe) : status.Status → Daemon → Heap → option (Daemon * Heap) :=
  match p with
  | kvstore => OnStatusUpdate_kvstore
  | kubernetes => OnStatusUpdate_kubernetes
  | ipam => OnStatusUpdate_ipam
  | node_monitor => OnStatusUpdate_node_monitor
  | cluster => OnStatusUpdate_cluster
  | cilium_health => OnStatusUpdate_cilium_health
  | l7_proxy => OnStatusUpdate_l7_proxy
  | controllers => OnStatusUpdate_controllers
  | clustermesh => OnStatusUpdate_clustermesh
  | hubble => OnStatusUpdate_hubble
  | encryption => OnStatusUpdate_encryption
  | kube_proxy_replacement => OnStatusUpdate_kube_proxy_replacement
  | auth_cert_provider => OnStatusUpdate_auth_cert_provider
  | cni_config => OnStatusUpdate_cni_config
  end.

(** ** Snapshot and rollup: [getStatus] *)

Module version.
(** The result of [version.GetCiliumVersion()], with the two members
    that [getStatus] formats. *)
Record CiliumVersion := mk { Version : string; Revision : string }.
End version.

(** [strfmt.DateTime(startTime)]: a conversion between two named types of
    the same representation.  Instants are nanosecond counts. *)
Definition strfmt_DateTime (startTime : Z) : Z := startTime.

(** Modelled from the spec: [StatusResponse.DeepCopy] is generated code of
    package models and is not among the sources; the spec requires the
    snapshot to be "an isolated copy" of the live store.  The response is
    copied by value and the cluster status it points to is duplicated into
    a newly allocated cell. *)
Definition DeepCopy (sr : StatusResponse) (h : Heap) : StatusResponse * Heap :=
  match Cluster sr with
  | Some l => let l' := alloc h in (set_Cluster (Some l') sr, store l' (load l h) h)
  | None => (sr, h)
  end.

(** The loop over [d.statusResponse.Controllers] of the brief branch:
    entries without a status are skipped, the first entry with a failure
    message is appended and ends the loop.  [None] is the nil slice that
    [minimalControllers] stays when nothing is appended.  The appended
    [c.DeepCopy()] has the content of [c]. *)
Fixpoint minimalControllers (cs : ControllerStatuses) : option ControllerStatuses :=
  match cs with
  | [] => None
  | c :: rest =>
      match ControllerStatus.Status c with
      | None => minimalControllers rest
      | Some s =>
          if bool_decide (ControllerStatusStatus.LastFailureMsg s ≠ "")
          then Some [c]
          else minimalControllers rest
      end
  end.

(** [fmt.Sprintf("%s (v%s-%s)", ver.Version, ver.Version, ver.Revision)] *)
Definition ciliumVer (ver : version.CiliumVersion) : string :=
  version.Version ver +:+ " (v" +:+ version.Version ver +:+ "-"
    +:+ version.Revision ver +:+ ")".

(** [fmt.Sprintf("%s    %s", ciliumVer, msg)] *)
Definition withReason (ciliumVer msg : string) : string :=
  ciliumVer +:+ "    " +:+ msg.

(** The cases of the [switch] of [getStatus], in source order.  Each one is
    [Some] of the status it assigns to [sr.Cilium] when its condition
    holds. *)
Section Switch.
Variable ciliumVer : string.
Variable d : Daemon.
Variable requireK8sConnectivity : bool.

Definition case_stale (sr : StatusResponse) : option Status.t :=
  if bool_decide (0 < size (Stale sr)) then
    Some {| Status.State := StatusStateWarning;
            Status.Msg := withReason ciliumVer "Stale status data" |}
  else None.

Definition case_kvstore : option Status.t :=
  match Kvstore (statusResponse d) with
  | Some kv =>
      if bool_decide (Status.State kv ≠ StatusStateOk)
         && bool_decide (Status.State kv ≠ StatusStateDisabled)
      then Some {| Status.State := Status.State kv;
                   Status.Msg :=
                     withReason ciliumVer
                       ("Kvstore service is not ready: " +:+ Status.Msg kv) |}
      else None
  | None => None
  end.

Definition case_container_runtime : option Status.t :=
  match ContainerRuntime (statusResponse d) with
  | Some cr =>
      if bool_decide (Status.State cr ≠ StatusStateOk) then
        let msg :=
          if bool_decide (Status.State cr = StatusStateDisabled)
          then "Container runtime is disabled"
          else "Container runtime is not ready: " +:+ Status.Msg cr in
        Some {| Status.State := Status.State cr;
                Status.Msg := withReason ciliumVer msg |}
      else None
  | None => None
  end.

Definition case_kubernetes : option Status.t :=
  if clientset_IsEnabled d then
    match Kubernetes (statusResponse d) with
    | Some k =>
        if bool_decide (K8sStatus.State k ≠ StatusStateOk)
           && requireK8sConnectivity
        then Some {| Status.State := K8sStatus.State k;
                     Status.Msg :=
                       withReason ciliumVer
                         ("Kubernetes service is not ready: " +:+ K8sStatus.Msg k) |}
        else None
    | None => None
    end
  else None.

Definition case_cni_file : option Status.t :=
  match CniFile (statusResponse d) with
  | Some cni =>
      if bool_decide (Status.State cni = StatusStateFailure) then
        Some {| Status.State := StatusStateFailure;
                Status.Msg :=
                  withReason ciliumVer
                    ("Could not write CNI config file: " +:+ Status.Msg cni) |}
      else None
  | None => None
  end.

Definition case_default : Status.t :=
  {| Status.State := StatusStateOk; Status.Msg := ciliumVer |}.

(** The first case whose condition holds decides. *)
Definition switch (sr : StatusResponse) : Status.t :=
  match case_stale sr with
  | Some v => v
  | None =>
  match case_kvstore with
  | Some v => v
  | None =>
  match case_container_runtime with
  | Some v => v
  | None =>
  match case_kubernetes with
  | Some v => v
  | None =>
  match case_cni_file with
  | Some v => v
  | None => case_default
  end end end end end.
End Switch.

(** [staleProbes] is the result of [d.statusCollector.GetStaleProbes()].
    The body below the read lock is one atomic step; it returns the
    response together with the heap, in which the copies were allocated. *)
Definition getStatus (ver : version.CiliumVersion) (staleProbes : gmap string Z)
    (d : Daemon) (h : Heap) (brief requireK8sConnectivity : bool)
    : StatusResponse * Heap :=
  let stale := strfmt_DateTime <$> staleProbes in
  let '(sr, h1) :=
    if brief then
      let csCopy := alloc h in
      let health :=
        match Cluster (statusResponse d) with
        | Some l => ClusterStatus.CiliumHealth (load l h)
        | None => None
        end in
      let controllers' :=
        match Controllers (statusResponse d) with
        | Some cs => minimalControllers cs
        | None => None
        end in
      (set_Controllers controllers' (set_Cluster (Some csCopy) zeroStatusResponse),
       store csCopy (ClusterStatus.set_CiliumHealth health ClusterStatus.zero) h)
    else DeepCopy (statusResponse d) h in
  let sr := set_Stale stale sr in
  (set_Cilium (Some (switch (ciliumVer ver) d requireK8sConnectivity sr)) sr, h1).

(** ** Package time

    Instants and durations are counts of nanoseconds; a duration is a
    64-bit integer. *)
Definition Second : Z := 1000000000.
Definition Minute : Z := 60 * Second.

Definition minDuration : Z := - 2 ^ 63.
Definition maxDuration : Z := 2 ^ 63 - 1.

(** [time.Since(t)], with the clock reading [now]: the difference of two
    instants saturates at the bounds of [time.Duration]. *)
Definition Since (now t : Z) : Z :=
  Z.max minDuration (Z.min maxDuration (now - t)).

(** ** The version memoizer and [getK8sStatus] *)

(** [k8sVersionCheckInterval] is the interval in which the Kubernetes
    version is verified even if connectivity is given. *)
Definition k8sVersionCheckInterval : Z := 15 * Minute.

(** [k8sMinimumEventHeartbeat] is the time interval in which any received
    event will be considered proof that the apiserver connectivity is
    healthy. *)
Definition k8sMinimumEventHeartbeat : Z := Minute.

(** The methods hold [lock] from entry to return, so each is one atomic
    step on the two data members. *)
Record k8sVersion := mkK8sVersion {
  version : string;
  lastVersionCheck : Z
}.

(** The answer of the server, with the four members that [update]
    formats. *)
Module versionapi.
Record Info := mk { Major : string; Minor : string; GitVersion : string; Platform : string }.
End versionapi.

(** The two calls of [time.Since] read the clock one after the other:
    [now1] is the reading of the heartbeat test, [now2] the reading of the
    recheck test.  [lastSuccessInteraction] is
    [k8smetrics.LastSuccessInteraction.Time()]. *)
Definition cachedVersion (now1 now2 lastSuccessInteraction : Z) (k : k8sVersion)
    : string * bool :=
  if bool_decide (Since now1 lastSuccessInteraction > k8sMinimumEventHeartbeat)%Z
  then ("", false)
  else if bool_decide (version k = "")
          || bool_decide (Since now2 (lastVersionCheck k) > k8sVersionCheckInterval)%Z
  then ("", false)
  else (version k, true).

(** [now] is the reading of [time.Now()]. *)
Definition update (now : Z) (v : versionapi.Info) (k : k8sVersion) : string * k8sVersion :=
  let s := versionapi.Major v +:+ "." +:+ versionapi.Minor v +:+ " ("
             +:+ versionapi.GitVersion v +:+ ") [" +:+ versionapi.Platform v +:+ "]" in
  (s, {| version := s; lastVersionCheck := now |}).

(** What [getK8sStatus] reads from its environment. *)
Record K8sEnv := mkK8sEnv {
  (** clock readings, in program order *)
  now1 : Z; now2 : Z; now3 : Z;
  lastSuccessInteraction : Z;
  (** what [d.clientset.Discovery().ServerVersion()] answers when asked:
      the version, or the text of the error *)
  ServerVersion : versionapi.Info + string;
  (** [d.k8sWatcher.GetAPIGroups()] *)
  GetAPIGroups : list string
}.

(** The outcome: the returned status, the package variable
    [k8sVersionCache] afterwards, and the number of live
    [ServerVersion] queries that were issued. *)
Record K8sOutcome := mkK8sOutcome {
  k8sStatus : K8sStatus.t;
  k8sVersionCache' : k8sVersion;
  queries : nat
}.

Definition getK8sStatus (d : Daemon) (env : K8sEnv) (k8sVersionCache : k8sVersion)
    : K8sOutcome :=
  if negb (clientset_IsEnabled d) then
    {| k8sStatus := {| K8sStatus.State := StatusStateDisabled; K8sStatus.Msg := "";
                       K8sStatus.K8sAPIVersions := [] |};
       k8sVersionCache' := k8sVersionCache; queries := 0 |}
  else
    let '(version, valid) :=
      cachedVersion (now1 env) (now2 env) (lastSuccessInteraction env) k8sVersionCache in
    let ok version cache n :=
      {| k8sStatus := {| K8sStatus.State := StatusStateOk; K8sStatus.Msg := version;
                         K8sStatus.K8sAPIVersions := GetAPIGroups env |};
         k8sVersionCache' := cache; queries := n |} in
    if negb valid then
      match ServerVersion env with
      | inr err =>
          {| k8sStatus := {| K8sStatus.State := StatusStateFailure; K8sStatus.Msg := err;
                             K8sStatus.K8sAPIVersions := [] |};
             k8sVersionCache' := k8sVersionCache; queries := 1 |}
      | inl k8sVersion =>
          let '(version, cache) := update (now3 env) k8sVersion k8sVersionCache in
          ok version cache 1
      end
    else ok version k8sVersionCache 0.

(** ** The interval of the kubernetes probe *)

(** Modelled from the spec: [backoff.CalculateDuration] belongs to package
    backoff, which is not among the sources.  The spec gives the delay as
    "an exponentially growing delay base * multiplier^f, clamped to
    [min, max]"; the base is the minimum.  The probe asks for no jitter,
    and only that variant is modelled. *)
Definition CalculateDuration (min max factor failures : Z) : Z :=
  Z.max min (Z.min max (min * factor ^ failures)).

(** [ClusterSizeDependantInterval] is the method of
    [d.nodeDiscovery.Manager], whose answer depends on the number of nodes
    of the cluster. *)
Definition Interval (ClusterSizeDependantInterval : Z → Z) (failures : Z) : Z :=
  if bool_decide (failures > 0)%Z then
    CalculateDuration (5 * Second)%Z (2 * Minute)%Z 2%Z failures
  else ClusterSizeDependantInterval (10 * Second)%Z.

(** ** Conditions of the rollup, as the specification words them *)

(** Control-plane-store field present and not in {OK, Disabled}. *)
Definition kvstoreNotReady (d : Daemon) (kv : Status.t) : Prop :=
  Kvstore (statusResponse d) = Some kv
  ∧ Status.State kv ≠ StatusStateOk ∧ Status.State kv ≠ StatusStateDisabled.

(** Local-runtime field present and not OK. *)
Definition runtimeNotReady (d : Daemon) (cr : Status.t) : Prop :=
  ContainerRuntime (statusResponse d) = Some cr ∧ Status.State cr ≠ StatusStateOk.

(** Orchestrator field present and not OK. *)
Definition kubernetesNotReady (d : Daemon) (k : K8sStatus.t) : Prop :=
  Kubernetes (statusResponse d) = Some k ∧ K8sStatus.State k ≠ StatusStateOk.

(** The orchestrator gate of the switch: the clientset is enabled, the
    caller requires connectivity, and the orchestrator is not ready. *)
Definition kubernetesGate (d : Daemon) (requireK8sConnectivity : bool)
    (k : K8sStatus.t) : Prop :=
  clientset_IsEnabled d = true ∧ requireK8sConnectivity = true
  ∧ kubernetesNotReady d k.

(** Local-config-write field equals Failure. *)
Definition cniFileFailure (d : Daemon) (cni : Status.t) : Prop :=
  CniFile (statusResponse d) = Some cni ∧ Status.State cni = StatusStateFailure.

Definition runtimeMessage (cr : Status.t) : string :=
  if bool_decide (Status.State cr = StatusStateDisabled)
  then "Container runtime is disabled"
  else "Container runtime is not ready: " +:+ Status.Msg cr.

(** ** Reading the aggregate *)

(** [d.statusResponse.Cluster.CiliumHealth], nil when there is no cluster
    status. *)
Definition readCiliumHealth (sr : StatusResponse) (h : Heap) : option Status.t :=
  match Cluster sr with
  | Some l => ClusterStatus.CiliumHealth (load l h)
  | None => None
  end.

(** ** Controllers in the brief view *)

(** The controller reports a non-empty last-failure message. *)
Definition hasFailureMsg (c : ControllerStatus.t) : bool :=
  match ControllerStatus.Status c with
  | Some s => bool_decide (ControllerStatusStatus.LastFailureMsg s ≠ "")
  | None => false
  end.

(** ** Sample inputs *)

Definition ver0 : version.CiliumVersion :=
  {| version.Version := "1.16.0"; version.Revision := "abcdef" |}.

Definition daemon0 : Daemon :=
  {| statusResponse := zeroStatusResponse; clientset_IsEnabled := true;
     ciliumHealth := true |}.

Definition ok_status : Status.t :=
  {| Status.State := StatusStateOk; Status.Msg := "" |}.

(** A daemon whose kvstore reported a failure. *)
Definition daemon_kvstore_down : Daemon :=
  with_statusResponse (set_Kvstore (Some (failure "etcd unreachable"))) daemon0.

Definition k8s_ok : K8sStatus.t :=
  {| K8sStatus.State := StatusStateOk;
     K8sStatus.Msg := "1.29 (v1.29.0) [linux/amd64]";
     K8sStatus.K8sAPIVersions := ["cilium/v2::CiliumNetworkPolicy"] |}.

Definition k8s_down : K8sStatus.t :=
  {| K8sStatus.State := StatusStateFailure; K8sStatus.Msg := "connection refused";
     K8sStatus.K8sAPIVersions := [] |}.

Definition daemon_k8s_down : Daemon :=
  with_statusResponse (set_Kubernetes (Some k8s_down)) daemon0.

(** A daemon that runs without Kubernetes: the clientset is disabled and
    the kubernetes probe reported what [getK8sStatus] returns then. *)
Definition k8s_disabled : K8sStatus.t :=
  {| K8sStatus.State := StatusStateDisabled; K8sStatus.Msg := "";
     K8sStatus.K8sAPIVersions := [] |}.

Definition daemon_without_k8s : Daemon :=
  {| statusResponse := set_Kubernetes (Some k8s_disabled) zeroStatusResponse;
     clientset_IsEnabled := false; ciliumHealth := true |}.

Definition controller (name msg : string) : ControllerStatus.t :=
  {| ControllerStatus.Name := name;
     ControllerStatus.Status :=
       Some {| ControllerStatusStatus.LastFailureMsg := msg |} |}.

(** ** What a sink expects and what it touches *)

(** The concrete type that the checked type assertion of each sink asks
    for. *)
Definition expectedType (p : Probe) (x : Data) : bool :=
  match p, x with
  | kvstore, DataStatus _
  | kubernetes, DataK8sStatus _
  | ipam, DataIPAMStatus _
  | node_monitor, DataMonitorStatus _
  | cluster, DataClusterStatus _
  | cilium_health, DataStatus _
  | l7_proxy, DataProxyStatus _
  | controllers, DataControllerStatuses _
  | clustermesh, DataClusterMeshStatus _
  | hubble, DataHubbleStatus _
  | encryption, DataEncryptionStatus _
  | kube_proxy_replacement, DataKubeProxyReplacement _
  | auth_cert_provider, DataStatus _
  | cni_config, DataStatus _ => true
  | _, _ => false
  end.

(** The members of [models.StatusResponse]. *)
Inductive Field :=
| FAttachMode | FAuthCertificateProvider | FBandwidthManager | FBpfMaps
| FCilium | FClockSource | FCluster | FClusterMesh | FCniChaining | FCniFile
| FContainerRuntime | FControllers | FDatapathMode | FEncryption
| FHostFirewall | FHubble | FIdentityRange | FIpam | FIPV4BigTCP
| FIPV6BigTCP | FKubeProxyReplacement | FKubernetes | FKvstore
| FMasquerading | FNodeMonitor | FProxy | FRouting | FSrv6 | FStale.

#[global] Instance Field_eq_dec : EqDecision Field.
Proof. solve_decision. Defined.

(** The content of a member, read through the pointers. *)
Inductive FieldVal :=
| VString (s : string)
| VStatus (o : option Status.t)
| VK8sStatus (o : option K8sStatus.t)
| VBody (o : option Body)
| VCluster (o : option ClusterStatus.t)
| VControllers (o : option ControllerStatuses)
| VStale (m : gmap string Z).

Definition readCluster (sr : StatusResponse) (h : Heap) : option ClusterStatus.t :=
  match Cluster sr with
  | Some l => Some (load l h)
  | None => None
  end.

Definition readField (f : Field) (sr : StatusResponse) (h : Heap) : FieldVal :=
  match f with
  | FAttachMode => VString (AttachMode sr)
  | FAuthCertificateProvider => VStatus (AuthCertificateProvider sr)
  | FBandwidthManager => VBody (BandwidthManager sr)
  | FBpfMaps => VBody (BpfMaps sr)
  | FCilium => VStatus (Cilium sr)
  | FClockSource => VBody (ClockSource sr)
  | FCluster => VCluster (readCluster sr h)
  | FClusterMesh => VBody (ClusterMesh sr)
  | FCniChaining => VBody (CniChaining sr)
  | FCniFile => VStatus (CniFile sr)
  | FContainerRuntime => VStatus (ContainerRuntime sr)
  | FControllers => VControllers (Controllers sr)
  | FDatapathMode => VString (DatapathMode sr)
  | FEncryption => VBody (Encryption sr)
  | FHostFirewall => VBody (HostFirewall sr)
  | FHubble => VBody (Hubble sr)
  | FIdentityRange => VBody (IdentityRange sr)
  | FIpam => VBody (Ipam sr)
  | FIPV4BigTCP => VBody (IPV4BigTCP sr)
  | FIPV6BigTCP => VBody (IPV6BigTCP sr)
  | FKubeProxyReplacement => VBody (KubeProxyReplacement sr)
  | FKubernetes => VK8sStatus (Kubernetes sr)
  | FKvstore => VStatus (Kvstore sr)
  | FMasquerading => VBody (Masquerading sr)
  | FNodeMonitor => VBody (NodeMonitor sr)
  | FProxy => VBody (Proxy sr)
  | FRouting => VBody (Routing sr)
  | FSrv6 => VBody (Srv6 sr)
  | FStale => VStale (Stale sr)
  end.

(** The sink of [p] writes member [f]: some call changes its content. *)
Definition writes (p : Probe) (f : Field) : Prop :=
  ∃ st d h d' h',
    OnStatusUpdate p st d h = Some (d', h')
    ∧ readField f (statusResponse d) h ≠ readField f (statusResponse d') h'.

(** The member in which each probe reports. *)
Definition target (p : Probe) : Field :=
  match p with
  | kvstore => FKvstore
  | kubernetes => FKubernetes
  | ipam => FIpam
  | node_monitor => FNodeMonitor
  | cluster => FCluster
  | cilium_health => FCluster
  | l7_proxy => FProxy
  | controllers => FControllers
  | clustermesh => FClusterMesh
  | hubble => FHubble
  | encryption => FEncryption
  | kube_proxy_replacement => FKubeProxyReplacement
  | auth_cert_provider => FAuthCertificateProvider
  | cni_config => FCniFile
  end.

(** The field of a probe is populated: its pointer (for cilium-health, the
    [CiliumHealth] member of the cluster status) is not nil. *)
Definition populated (p : Probe) (d : Daemon) (h : Heap) : Prop :=
  let sr := statusResponse d in
  match p with
  | kvstore => is_Some (Kvstore sr)
  | kubernetes => is_Some (Kubernetes sr)
  | ipam => is_Some (Ipam sr)
  | node_monitor => is_Some (NodeMonitor sr)
  | cluster => is_Some (Cluster sr)
  | cilium_health => is_Some (readCiliumHealth sr h)
  | l7_proxy => is_Some (Proxy sr)
  | controllers => is_Some (Controllers sr)
  | clustermesh => is_Some (ClusterMesh sr)
  | hubble => is_Some (Hubble sr)
  | encryption => is_Some (Encryption sr)
  | kube_proxy_replacement => is_Some (KubeProxyReplacement sr)
  | auth_cert_provider => is_Some (AuthCertificateProvider sr)
  | cni_config => is_Some (CniFile sr)
  end.

(** The payload is a non-nil value of the type the sink expects. *)
Definition carriesValue (p : Probe) (x : Data) : bool :=
  match p, x with
  | kvstore, DataStatus (Some _)
  | kubernetes, DataK8sStatus (Some _)
  | ipam, DataIPAMStatus (Some _)
  | node_monitor, DataMonitorStatus (Some _)
  | cluster, DataClusterStatus (Some _)
  | cilium_health, DataStatus (Some _)
  | l7_proxy, DataProxyStatus (Some _)
  | controllers, DataControllerStatuses (Some _)
  | clustermesh, DataClusterMeshStatus (Some _)
  | hubble, DataHubbleStatus (Some _)
  | encryption, DataEncryptionStatus (Some _)
  | kube_proxy_replacement, DataKubeProxyReplacement (Some _)
  | auth_cert_provider, DataStatus (Some _)
  | cni_config, DataStatus (Some _) => true
  | _, _ => false
  end.

(** The sinks that turn an error into a Failure status. *)
Definition recordsErrors (d : Daemon) (p : Probe) : bool :=
  match p with
  | kvstore | kubernetes => true
  | cilium_health => ciliumHealth d
  | _ => false
  end.

(** The result makes the sink of [p] store a non-nil value: an error at a
    sink that records errors, or an error-free value of the expected type
    (at the cilium-health sink only when the health subsystem exists). *)
Definition accepted (d : Daemon) (p : Probe) (st : status.Status) : bool :=
  match status.Err st with
  | Some _ => recordsErrors d p
  | None =>
      carriesValue p (status.Data st)
      && match p with cilium_health => ciliumHealth d | _ => true end
  end.

(** The result makes the sink of [p] return without a write: an error at a
    sink that does not record errors, or an error-free payload that is nil
    or not of the expected type. *)
Definition skipped (d : Daemon) (p : Probe) (st : status.Status) : bool :=
  match status.Err st with
  | Some _ => negb (recordsErrors d p)
  | None => negb (expectedType p (status.Data st))
  end.

(** ** Histories of the collector *)

(** A completed run-and-sink cycle: the probe and the result of its run. *)
Definition Cycle : Type := Probe * status.Status.

(** Modelled from the spec: the collector of package status is not among
    the sources.  Per the spec each probe's task repeats "run, then sink",
    and a sink "locks the Aggregate Store, writes the subsystem's field,
    unlocks"; a history is the sequence of the completed run-and-sink
    cycles, each applying the sink of its probe to the result of the run. *)
Fixpoint run (cycles : list Cycle) (d : Daemon) (h : Heap) : option (Daemon * Heap) :=
  match cycles with
  | [] => Some (d, h)
  | (p, st) :: rest =>
      match OnStatusUpdate p st d h with
      | Some (d', h') => run rest d' h'
      | None => None
      end
  end.

(** Modelled from the spec: [WaitForFirstRun] "blocks until every
    registered probe has completed at least one run-and-sink cycle"; it
    returns successfully on the histories in which every probe occurs. *)
Definition firstRunDone (cycles : list Cycle) : bool :=
  forallb (λ p, bool_decide (p ∈ cycles.*1)) probes.

(** The result of the most recent cycle of [p]. *)
Fixpoint lastResult (p : Probe) (cycles : list Cycle) : option status.Status :=
  match cycles with
  | [] => None
  | (q, st) :: rest =>
      match lastResult p rest with
      | Some st' => Some st'
      | None => if bool_decide (q = p) then Some st else None
      end
  end.

(** The [Probe] member of the l7-proxy entry: [l7Proxy] is [None] when
    [d.l7Proxy] is nil, and else holds what [GetStatusModel()] returns.
    The result pairs the value with the error. *)
Definition Probe_l7_proxy (l7Proxy : option (option Body)) : Data * option string :=
  match l7Proxy with
  | None => (DataNil, None)
  | Some model => (DataProxyStatus model, None)
  end.

(** A first round of a daemon without L7 proxy in which every other probe
    succeeds with a value of its type, except the ipam probe, whose result
    carries an error. *)
Definition sample_cluster : loc := 1%positive.

Definition sample_heap : Heap :=
  {[ sample_cluster := {| ClusterStatus.Self := "default/node-1";
                          ClusterStatus.CiliumHealth := None |} ]}.

Definition value (x : Data) : status.Status := {| status.Data := x; status.Err := None |}.

Definition first_round : list Cycle :=
  [(kvstore, value (DataStatus (Some ok_status)));
   (kubernetes, value (DataK8sStatus (Some k8s_ok)));
   (ipam, {| status.Data := DataNil;
             status.Err := Some "no response from ipam probe within 15 seconds" |});
   (node_monitor, value (DataMonitorStatus (Some "monitor")));
   (cluster, value (DataClusterStatus (Some sample_cluster)));
   (cilium_health, value (DataStatus (Some ok_status)));
   (l7_proxy, {| status.Data := (Probe_l7_proxy None).1;
                 status.Err := (Probe_l7_proxy None).2 |});
   (controllers, value (DataControllerStatuses (Some [])));
   (clustermesh, value (DataClusterMeshStatus (Some "mesh")));
   (hubble, value (DataHubbleStatus (Some "hubble")));
   (encryption, value (DataEncryptionStatus (Some "disabled")));
   (kube_proxy_replacement, value (DataKubeProxyReplacement (Some "kpr")));
   (auth_cert_provider, value (DataStatus (Some ok_status)));
   (cni_config, value (DataStatus (Some ok_status)))].

(** A successful result of each probe. *)
Definition sample_result (p : Probe) : status.Status :=
  value
    match p with
    | kvstore | cilium_health | auth_cert_provider | cni_config =>
        DataStatus (Some ok_status)
    | kubernetes => DataK8sStatus (Some k8s_ok)
    | ipam => DataIPAMStatus (Some "ipam")
    | node_monitor => DataMonitorStatus (Some "monitor")
    | cluster => DataClusterStatus (Some sample_cluster)
    | l7_proxy => DataProxyStatus (Some "proxy")
    | controllers => DataControllerStatuses (Some [])
    | clustermesh => DataClusterMeshStatus (Some "mesh")
    | hubble => DataHubbleStatus (Some "hubble")
    | encryption => DataEncryptionStatus (Some "disabled")
    | kube_proxy_replacement => DataKubeProxyReplacement (Some "kpr")
    end.

(** A daemon without health subsystem ([d.ciliumHealth == nil]). *)
Definition daemon_without_health : Daemon :=
  {| statusResponse := zeroStatusResponse; clientset_IsEnabled := true;
     ciliumHealth := false |}.

(** A result without payload that carries an error. *)
Definition timed_out : status.Status :=
  {| status.Data := DataNil;
     status.Err := Some "no response from probe within 15 seconds" |}.

(** A heap with the live cluster status and the cluster status that the
    next run of the cluster probe returns. *)
Definition next_cluster : loc := 2%positive.

Definition heap_two : Heap :=
  {[ sample_cluster := {| ClusterStatus.Self := "default/node-1";
                          ClusterStatus.CiliumHealth := Some ok_status |};
     next_cluster := {| ClusterStatus.Self := "default/node-1";
                        ClusterStatus.CiliumHealth := None |} ]}.

Definition daemon_running : Daemon :=
  with_statusResponse
    (λ sr, set_Cluster (Some sample_cluster) (set_Kvstore (Some ok_status) sr))
    daemon0.

Definition later_updates : list Cycle :=
  [(cilium_health, timed_out);
   (cluster, value (DataClusterStatus (Some next_cluster)));
   (kvstore, timed_out)].

(** ** Isolation of a snapshot *)

(** The snapshot [sr] is untouched by a later result of the cluster probe
    unless the result is the very cell the snapshot owns; a probe cannot
    return that cell, which was handed to the caller of [getStatus]
    only. *)
Definition foreignResults (sr : StatusResponse) (cycles : list Cycle) : Prop :=
  ∀ st l, (cluster, st) ∈ cycles →
          status.Data st = DataClusterStatus (Some l) → Cluster sr ≠ Some l.

(** Every pointer of the live store points to an allocated cell. *)
Definition allocated (d : Daemon) (h : Heap) : Prop :=
  ∀ l, Cluster (statusResponse d) = Some l → l ∈ dom h.

(** The cell [ls] is allocated, holds [c] and is not the live cluster
    status. *)
Definition apart (ls : loc) (c : ClusterStatus.t) (d : Daemon) (h : Heap) : Prop :=
  h !! ls = Some c ∧ Cluster (statusResponse d) ≠ Some ls.

(** ** Proof steps shared by the lemmas on sinks *)

(** Case analysis on a call of a sink: on the error, on the dynamic type
    of the payload and on the nil-ness of the pointers involved. *)
Ltac sink_cases st :=
  destruct st as [[ | [?|] | [?|] | [?|] | [?|] | [?|] | [?|] | [?|] | [?|] | [?|]
                    | [?|] | [?|] | ?] [?|]];
  cbn [status.Err status.Data] in *.

Ltac unfold_sinks :=
  unfold OnStatusUpdate, OnStatusUpdate_kvstore, OnStatusUpdate_kubernetes,
    OnStatusUpdate_ipam, OnStatusUpdate_node_monitor, OnStatusUpdate_cluster,
    OnStatusUpdate_cilium_health, OnStatusUpdate_l7_proxy,
    OnStatusUpdate_controllers, OnStatusUpdate_clustermesh,
    OnStatusUpdate_hubble, OnStatusUpdate_encryption,
    OnStatusUpdate_kube_proxy_replacement, OnStatusUpdate_auth_cert_provider,
    OnStatusUpdate_cni_config in *.

(** The branches that remain in the hypotheses. *)
Ltac sink_branches :=
  repeat (simplify_eq; try done;
          match goal with
          | H : context [match ?x with _ => _ end] |- _ => destruct x eqn:?
          end); simplify_eq.

(** * Properties *)

(** ** Rollup *)

Lemma stale_nonempty (staleProbes : gmap string Z) :
  bool_decide (0 < size (strfmt_DateTime <$> staleProbes)) = true ↔ staleProbes ≠ ∅.
Proof.
  rewrite bool_decide_eq_true, map_size_fmap.
  split.
  - intros Hlt ->. rewrite map_size_empty in Hlt. lia.
  - intros Hne. apply map_size_non_empty_iff in Hne. lia.
Qed.

Lemma stale_empty (staleProbes : gmap string Z) :
  bool_decide (0 < size (strfmt_DateTime <$> staleProbes)) = false ↔ staleProbes = ∅.
Proof.
  rewrite bool_decide_eq_false, map_size_fmap.
  split.
  - intros Hn. apply map_size_empty_iff. lia.
  - intros ->. rewrite map_size_empty. lia.
Qed.

(** The verdict is the value of the switch, whatever the kind of snapshot. *)
Lemma getStatus_Cilium ver staleProbes d h brief req :
  Cilium (getStatus ver staleProbes d h brief req).1
  = Some (switch (ciliumVer ver) d req
            (set_Stale (strfmt_DateTime <$> staleProbes) zeroStatusResponse)).
Proof.
  unfold getStatus. destruct brief; [reflexivity |].
  unfold DeepCopy. destruct (Cluster (statusResponse d)); reflexivity.
Qed.

Lemma getStatus_Stale ver staleProbes d h brief req :
  Stale (getStatus ver staleProbes d h brief req).1 = staleProbes.
Proof.
  unfold getStatus. destruct brief.
  - cbn. apply map_fmap_id.
  - unfold DeepCopy. destruct (Cluster (statusResponse d)); cbn; apply map_fmap_id.
Qed.

Section SwitchCases.
Variables (cv : string) (d : Daemon) (req : bool) (sr : StatusResponse).

Lemma case_kvstore_Some kv :
  kvstoreNotReady d kv →
  case_kvstore cv d
  = Some {| Status.State := Status.State kv;
            Status.Msg := withReason cv ("Kvstore service is not ready: " +:+ Status.Msg kv) |}.
Proof.
  intros (Hkv & Hok & Hdis). unfold case_kvstore. rewrite Hkv.
  rewrite !bool_decide_eq_true_2 by assumption. reflexivity.
Qed.

Lemma case_kvstore_None :
  (∀ kv, ¬ kvstoreNotReady d kv) → case_kvstore cv d = None.
Proof.
  intros Hn. unfold case_kvstore.
  destruct (Kvstore (statusResponse d)) as [kv|] eqn:Hkv; [| reflexivity].
  destruct (bool_decide _) eqn:H1; [| reflexivity].
  destruct (bool_decide (Status.State kv ≠ StatusStateDisabled)) eqn:H2; [| reflexivity].
  apply bool_decide_eq_true in H1, H2. exfalso. apply (Hn kv). repeat split; assumption.
Qed.

Lemma case_container_runtime_Some cr :
  runtimeNotReady d cr →
  case_container_runtime cv d
  = Some {| Status.State := Status.State cr;
            Status.Msg := withReason cv (runtimeMessage cr) |}.
Proof.
  intros (Hcr & Hok). unfold case_container_runtime. rewrite Hcr.
  rewrite bool_decide_eq_true_2 by assumption. reflexivity.
Qed.

Lemma case_container_runtime_None :
  (∀ cr, ¬ runtimeNotReady d cr) → case_container_runtime cv d = None.
Proof.
  intros Hn. unfold case_container_runtime.
  destruct (ContainerRuntime (statusResponse d)) as [cr|] eqn:Hcr; [| reflexivity].
  destruct (bool_decide _) eqn:H1; [| reflexivity].
  apply bool_decide_eq_true in H1. exfalso. apply (Hn cr). split; assumption.
Qed.

Lemma case_kubernetes_Some k :
  kubernetesGate d req k →
  case_kubernetes cv d req
  = Some {| Status.State := K8sStatus.State k;
            Status.Msg :=
              withReason cv ("Kubernetes service is not ready: " +:+ K8sStatus.Msg k) |}.
Proof.
  intros (Hen & Hreq & Hk & Hok). unfold case_kubernetes. rewrite Hen, Hk, Hreq.
  rewrite bool_decide_eq_true_2 by assumption. reflexivity.
Qed.

Lemma case_kubernetes_None :
  (∀ k, ¬ kubernetesGate d req k) → case_kubernetes cv d req = None.
Proof.
  intros Hn. unfold case_kubernetes.
  destruct (clientset_IsEnabled d) eqn:Hen; [| reflexivity].
  destruct (Kubernetes (statusResponse d)) as [k|] eqn:Hk; [| reflexivity].
  destruct (bool_decide _) eqn:H1; [| reflexivity].
  destruct req; [| reflexivity].
  apply bool_decide_eq_true in H1. exfalso. apply (Hn k). repeat split; assumption.
Qed.

Lemma case_cni_file_Some cni :
  cniFileFailure d cni →
  case_cni_file cv d
  = Some {| Status.State := StatusStateFailure;
            Status.Msg :=
              withReason cv ("Could not write CNI config file: " +:+ Status.Msg cni) |}.
Proof.
  intros (Hcni & Hf). unfold case_cni_file. rewrite Hcni.
  rewrite bool_decide_eq_true_2 by assumption. reflexivity.
Qed.

Lemma case_cni_file_None :
  (∀ cni, ¬ cniFileFailure d cni) → case_cni_file cv d = None.
Proof.
  intros Hn. unfold case_cni_file.
  destruct (CniFile (statusResponse d)) as [cni|] eqn:Hcni; [| reflexivity].
  destruct (bool_decide _) eqn:H1; [| reflexivity].
  apply bool_decide_eq_true in H1. exfalso. apply (Hn cni). split; assumption.
Qed.
End SwitchCases.

(** C1.  The verdict of [getStatus] is decided by the first case that
    applies, in the order: stale probes, kvstore, container runtime,
    orchestrator gate, CNI configuration file, and OK otherwise.  With
    stale probes and a kvstore that is not ready at the same time, the
    verdict is a warning whose message is the one of staleness. *)
Theorem getStatus_priority ver (staleProbes : gmap string Z) d h brief req :
  let sr := (getStatus ver staleProbes d h brief req).1 in
  let cv := ciliumVer ver in
  (staleProbes ≠ ∅ →
     Cilium sr = Some {| Status.State := StatusStateWarning;
                         Status.Msg := withReason cv "Stale status data" |})
  ∧ (staleProbes = ∅ → ∀ kv, kvstoreNotReady d kv →
     Cilium sr = Some {| Status.State := Status.State kv;
                         Status.Msg := withReason cv
                           ("Kvstore service is not ready: " +:+ Status.Msg kv) |})
  ∧ (staleProbes = ∅ → (∀ kv, ¬ kvstoreNotReady d kv) →
     ∀ cr, runtimeNotReady d cr →
     Cilium sr = Some {| Status.State := Status.State cr;
                         Status.Msg := withReason cv (runtimeMessage cr) |})
  ∧ (staleProbes = ∅ → (∀ kv, ¬ kvstoreNotReady d kv) →
     (∀ cr, ¬ runtimeNotReady d cr) →
     ∀ k, kubernetesGate d req k →
     Cilium sr = Some {| Status.State := K8sStatus.State k;
                         Status.Msg := withReason cv
                           ("Kubernetes service is not ready: " +:+ K8sStatus.Msg k) |})
  ∧ (staleProbes = ∅ → (∀ kv, ¬ kvstoreNotReady d kv) →
     (∀ cr, ¬ runtimeNotReady d cr) → (∀ k, ¬ kubernetesGate d req k) →
     ∀ cni, cniFileFailure d cni →
     Cilium sr = Some {| Status.State := StatusStateFailure;
                         Status.Msg := withReason cv
                           ("Could not write CNI config file: " +:+ Status.Msg cni) |})
  ∧ (staleProbes = ∅ → (∀ kv, ¬ kvstoreNotReady d kv) →
     (∀ cr, ¬ runtimeNotReady d cr) → (∀ k, ¬ kubernetesGate d req k) →
     (∀ cni, ¬ cniFileFailure d cni) →
     Cilium sr = Some {| Status.State := StatusStateOk; Status.Msg := cv |})
  ∧ (staleProbes ≠ ∅ → ∀ kv, kvstoreNotReady d kv →
     ∃ v, Cilium sr = Some v ∧ Status.State v = StatusStateWarning
          ∧ Status.Msg v = withReason cv "Stale status data"
          ∧ Status.Msg v ≠ withReason cv
                             ("Kvstore service is not ready: " +:+ Status.Msg kv)).
Proof.
  intros sr cv. subst sr cv. rewrite getStatus_Cilium. unfold switch, case_stale. cbn [Stale set_Stale].
  assert (Hst : staleProbes ≠ ∅ →
     bool_decide (0 < size (strfmt_DateTime <$> staleProbes)) = true)
    by (intros; by apply stale_nonempty).
  assert (Hemp : staleProbes = ∅ →
     bool_decide (0 < size (strfmt_DateTime <$> staleProbes)) = false)
    by (intros; by apply stale_empty).
  repeat split.
  - intros Hne. by rewrite Hst.
  - intros He kv Hkv. by rewrite Hemp, (case_kvstore_Some _ _ kv).
  - intros He Hkv cr Hcr.
    by rewrite Hemp, case_kvstore_None, (case_container_runtime_Some _ _ cr).
  - intros He Hkv Hcr k Hk.
    by rewrite Hemp, case_kvstore_None, case_container_runtime_None,
         (case_kubernetes_Some _ _ _ k).
  - intros He Hkv Hcr Hk cni Hcni.
    by rewrite Hemp, case_kvstore_None, case_container_runtime_None,
         case_kubernetes_None, (case_cni_file_Some _ _ cni).
  - intros He Hkv Hcr Hk Hcni.
    by rewrite Hemp, case_kvstore_None, case_container_runtime_None,
         case_kubernetes_None, case_cni_file_None.
  - intros Hne kv Hkv. rewrite Hst by assumption. eexists. repeat split.
    unfold withReason. intros Heq.
    apply (inj (String.append _)) in Heq. discriminate Heq.
Qed.

(** Witness of [getStatus_priority]: stale data wins over a failing
    kvstore. *)
Lemma getStatus_priority_witness :
  ∃ v, Cilium (getStatus ver0 {["kvstore" := 1700000000%Z]} daemon_kvstore_down ∅
                 false true).1 = Some v
       ∧ Status.State v = StatusStateWarning
       ∧ Status.Msg v = "1.16.0 (v1.16.0-abcdef)    Stale status data".
Proof.
  destruct (getStatus_priority ver0 {["kvstore" := 1700000000%Z]} daemon_kvstore_down ∅
              false true) as (_ & _ & _ & _ & _ & _ & H).
  destruct (H ltac:(vm_compute; discriminate) (failure "etcd unreachable"))
    as (v & Hv & Hs & Hm & _).
  - repeat split; vm_compute; discriminate.
  - exists v. repeat split; assumption.
Defined.

(** The claim C6 as it is worded fails for a daemon that runs without
    Kubernetes: connectivity is required, the Kubernetes field is present
    with a state other than OK, no earlier case applies, and yet the verdict
    is OK and not the state of the Kubernetes field. *)
Lemma kubernetes_gate_needs_clientset :
  kubernetesNotReady daemon_without_k8s k8s_disabled
  ∧ (∀ kv, ¬ kvstoreNotReady daemon_without_k8s kv)
  ∧ (∀ cr, ¬ runtimeNotReady daemon_without_k8s cr)
  ∧ Cilium (getStatus ver0 ∅ daemon_without_k8s ∅ false true).1
    = Some {| Status.State := StatusStateOk; Status.Msg := ciliumVer ver0 |}
  ∧ Cilium (getStatus ver0 ∅ daemon_without_k8s ∅ false true).1
    ≠ Some {| Status.State := K8sStatus.State k8s_disabled;
              Status.Msg := withReason (ciliumVer ver0)
                ("Kubernetes service is not ready: " +:+ K8sStatus.Msg k8s_disabled) |}.
Proof.
  repeat split; try (vm_compute; discriminate).
  - intros kv (H & _). vm_compute in H. discriminate.
  - intros cr (H & _). vm_compute in H. discriminate.
Qed.

(** C6, amended.  With the clientset enabled, connectivity required, the
    Kubernetes field present with a state other than OK and no earlier case
    applying, the verdict carries the state of the Kubernetes field and the
    message "Kubernetes service is not ready: ..." after the version banner.
    With the clientset disabled the case is skipped: the verdict is the one
    of the CNI configuration file or OK. *)
Theorem kubernetes_gate ver (staleProbes : gmap string Z) d h brief req k :
  staleProbes = ∅ →
  (∀ kv, ¬ kvstoreNotReady d kv) →
  (∀ cr, ¬ runtimeNotReady d cr) →
  req = true →
  kubernetesNotReady d k →
  let sr := (getStatus ver staleProbes d h brief req).1 in
  (clientset_IsEnabled d = true →
     Cilium sr = Some {| Status.State := K8sStatus.State k;
                         Status.Msg := withReason (ciliumVer ver)
                           ("Kubernetes service is not ready: " +:+ K8sStatus.Msg k) |})
  ∧ (clientset_IsEnabled d = false →
     Cilium sr = Some (default (case_default (ciliumVer ver))
                         (case_cni_file (ciliumVer ver) d))).
Proof.
  intros He Hkv Hcr Hreq Hk sr. subst sr. split.
  - intros Hen. rewrite getStatus_Cilium. unfold switch, case_stale.
    cbn [Stale set_Stale].
    rewrite (proj2 (stale_empty _) He), case_kvstore_None, case_container_runtime_None
      by assumption.
    rewrite (case_kubernetes_Some _ _ _ k); [reflexivity |].
    split; [assumption |]. split; assumption.
  - intros Hdis. rewrite getStatus_Cilium. unfold switch, case_stale.
    cbn [Stale set_Stale].
    rewrite (proj2 (stale_empty _) He), case_kvstore_None, case_container_runtime_None
      by assumption.
    unfold case_kubernetes. rewrite Hdis.
    destruct (case_cni_file _ _); reflexivity.
Qed.

Lemma kubernetes_gate_witness :
  Cilium (getStatus ver0 ∅ daemon_k8s_down ∅ false true).1
  = Some {| Status.State := StatusStateFailure;
            Status.Msg := "1.16.0 (v1.16.0-abcdef)    Kubernetes service is not ready: connection refused" |}.
Proof.
  apply (kubernetes_gate ver0 ∅ daemon_k8s_down ∅ false true k8s_down).
  - reflexivity.
  - intros kv (H & _). vm_compute in H. discriminate.
  - intros cr (H & _). vm_compute in H. discriminate.
  - reflexivity.
  - split; vm_compute; [reflexivity | discriminate].
  - reflexivity.
Defined.

(** ** Brief snapshots *)

Lemma minimalControllers_first pre c post :
  Forall (λ c', hasFailureMsg c' = false) pre →
  hasFailureMsg c = true →
  minimalControllers (pre ++ c :: post) = Some [c].
Proof.
  intros Hpre Hc. induction Hpre as [| c' pre Hc' _ IH]; cbn.
  - unfold hasFailureMsg in Hc.
    destruct (ControllerStatus.Status c); [| discriminate]. by rewrite Hc.
  - unfold hasFailureMsg in Hc'.
    destruct (ControllerStatus.Status c'); [| exact IH]. by rewrite Hc'.
Qed.

Lemma minimalControllers_none cs :
  Forall (λ c, hasFailureMsg c = false) cs → minimalControllers cs = None.
Proof.
  induction 1 as [| c cs Hc _ IH]; cbn; [reflexivity |].
  unfold hasFailureMsg in Hc.
  destruct (ControllerStatus.Status c); [| exact IH]. by rewrite Hc.
Qed.

(** Whatever the list, the result is nil or a single failing entry of it,
    preceded by entries without a failure message only. *)
Lemma minimalControllers_cases cs :
  (minimalControllers cs = None ∧ Forall (λ c, hasFailureMsg c = false) cs)
  ∨ (∃ pre c post, cs = pre ++ c :: post
       ∧ Forall (λ c', hasFailureMsg c' = false) pre
       ∧ hasFailureMsg c = true ∧ minimalControllers cs = Some [c]).
Proof.
  induction cs as [| c cs IH].
  - left. split; [reflexivity | constructor].
  - destruct (hasFailureMsg c) eqn:Hc.
    + right. exists [], c, cs.
      split; [reflexivity |]. split; [constructor |]. split; [assumption |].
      apply (minimalControllers_first [] c cs); [constructor | assumption].
    + destruct IH as [(Hn & Hall) | (pre & c' & post & -> & Hpre & Hc' & Hm)].
      * left. split; [| by constructor].
        apply minimalControllers_none. by constructor.
      * right. exists (c :: pre), c', post.
        split; [reflexivity |]. split; [by constructor |]. split; [assumption |].
        apply (minimalControllers_first (c :: pre)); [by constructor | assumption].
Qed.

(** C2.  A brief snapshot is the zero response in which only four members
    are set: the stale map, the verdict, a newly allocated cluster status
    that carries nothing but the copied [CiliumHealth] member, and the
    controllers.  Of the controllers it keeps at most one: the first that
    reports a non-empty last-failure message; those before it and all those
    after it are left out.  With three controllers of which only the second
    has a failure message, the second alone is reported. *)
Theorem brief_snapshot ver (staleProbes : gmap string Z) d h req :
  let sr := (getStatus ver staleProbes d h true req).1 in
  let h' := (getStatus ver staleProbes d h true req).2 in
  (∃ csCopy v,
      sr = set_Cilium (Some v)
             (set_Stale staleProbes
                (set_Controllers (Controllers sr)
                   (set_Cluster (Some csCopy) zeroStatusResponse)))
      ∧ (csCopy ∉ dom h)
      ∧ h' = <[csCopy :=
                 {| ClusterStatus.Self := "";
                    ClusterStatus.CiliumHealth :=
                      readCiliumHealth (statusResponse d) h |}]> h)
  ∧ (Controllers sr = None
     ∨ ∃ c, Controllers sr = Some [c] ∧ hasFailureMsg c = true)
  ∧ (∀ pre c post,
       Controllers (statusResponse d) = Some (pre ++ c :: post) →
       Forall (λ c', hasFailureMsg c' = false) pre →
       hasFailureMsg c = true →
       Controllers sr = Some [c])
  ∧ (∀ cs, Controllers (statusResponse d) = Some cs →
       Forall (λ c, hasFailureMsg c = false) cs → Controllers sr = None)
  ∧ (Controllers (statusResponse d) = None → Controllers sr = None)
  ∧ (∀ c1 c2 c3,
       Controllers (statusResponse d) = Some [c1; c2; c3] →
       hasFailureMsg c1 = false → hasFailureMsg c2 = true →
       hasFailureMsg c3 = false →
       Controllers sr = Some [c2]).
Proof.
  intros sr h'. subst sr h'. unfold getStatus.
  cbn [fst snd Controllers set_Cilium set_Stale set_Controllers].
  split; [| split; [| split; [| split; [| split]]]].
  - eexists (alloc h), _. split; [| split].
    + rewrite map_fmap_id. reflexivity.
    + unfold alloc. apply is_fresh.
    + reflexivity.
  - destruct (Controllers (statusResponse d)) as [cs|]; [| by left].
    destruct (minimalControllers_cases cs) as [(Hn & _) | (pre & c & post & _ & _ & Hc & Hm)].
    + by left.
    + right. by exists c.
  - intros pre c post -> Hpre Hc. by apply minimalControllers_first.
  - intros cs -> Hall. by apply minimalControllers_none.
  - by intros ->.
  - intros c1 c2 c3 -> H1 H2 H3.
    apply (minimalControllers_first [c1] c2 [c3]); [by repeat constructor | assumption].
Qed.

Lemma brief_snapshot_witness :
  Controllers
    (getStatus ver0 ∅
       (with_statusResponse
          (set_Controllers
             (Some [controller "sync-endpoints" ""; controller "dns-gc" "timeout";
                    controller "ipcache-gc" ""])) daemon0)
       ∅ true false).1
  = Some [controller "dns-gc" "timeout"].
Proof.
  refine (proj2 (proj2 (proj2 (proj2 (proj2
            (brief_snapshot ver0 ∅ _ ∅ false))))) _ _ _ _ _ _ _);
    reflexivity.
Defined.

(** ** The version memoizer *)

(** Saturation does not change the comparison of an age with a threshold
    that a duration can hold. *)
Lemma Since_le now t (limit : Z) :
  (0 ≤ limit < maxDuration)%Z → (Since now t ≤ limit ↔ now - t ≤ limit)%Z.
Proof.
  assert (minDuration = (-9223372036854775808)%Z) as Emin by reflexivity.
  assert (maxDuration = 9223372036854775807%Z) as Emax by reflexivity.
  unfold Since. lia.
Qed.

Lemma cachedVersion_spec now1 now2 ls k :
  let valid := ((now1 - ls ≤ k8sMinimumEventHeartbeat)%Z
                ∧ version k ≠ ""
                ∧ (now2 - lastVersionCheck k ≤ k8sVersionCheckInterval)%Z) in
  (valid → cachedVersion now1 now2 ls k = (version k, true))
  ∧ (¬ valid → cachedVersion now1 now2 ls k = ("", false)).
Proof.
  intros valid. subst valid. unfold cachedVersion.
  assert (H1 : (0 ≤ k8sMinimumEventHeartbeat < maxDuration)%Z) by (vm_compute; split; [discriminate | reflexivity]).
  assert (H2 : (0 ≤ k8sVersionCheckInterval < maxDuration)%Z) by (vm_compute; split; [discriminate | reflexivity]).
  pose proof (Since_le now1 ls _ H1) as E1.
  pose proof (Since_le now2 (lastVersionCheck k) _ H2) as E2.
  repeat case_bool_decide; cbn; split; intros Hv; try reflexivity;
    try (exfalso; lia); try (exfalso; tauto).
Qed.

(** The claim C5 as it is worded fails for a daemon that runs without
    Kubernetes: the cache is invalid, and [getK8sStatus] neither queries the
    server nor refreshes the cache. *)
Lemma getK8sStatus_disabled_no_query :
  let env := {| now1 := 100; now2 := 100; now3 := 100; lastSuccessInteraction := 0;
                ServerVersion := inl {| versionapi.Major := "1"; versionapi.Minor := "29";
                                        versionapi.GitVersion := "v1.29.0";
                                        versionapi.Platform := "linux/amd64" |};
                GetAPIGroups := [] |} in
  let cache := {| version := ""; lastVersionCheck := 0 |} in
  (cachedVersion (now1 env) (now2 env) (lastSuccessInteraction env) cache).2 = false
  ∧ queries (getK8sStatus daemon_without_k8s env cache) = 0
  ∧ k8sVersionCache' (getK8sStatus daemon_without_k8s env cache) = cache
  ∧ K8sStatus.State (k8sStatus (getK8sStatus daemon_without_k8s env cache))
    = StatusStateDisabled.
Proof. repeat split. Qed.

(** C5, amended.  [cachedVersion] reports the stored version as valid
    exactly when the last successful interaction is at most one minute old,
    the stored version is not empty and the last check is at most fifteen
    minutes old; a heartbeat older than one minute invalidates the cache
    however recent the check.  With the clientset enabled, [getK8sStatus]
    answers from a valid cache without a live query, and on an invalid cache
    issues one live query, whose answer refreshes the cache or whose error
    becomes a Failure status.  With the clientset disabled it reports
    Disabled and touches neither the cache nor the server. *)
Theorem version_memoizer d env k :
  let heartbeat := (now1 env - lastSuccessInteraction env ≤ Minute)%Z in
  let recent := (now2 env - lastVersionCheck k ≤ 15 * Minute)%Z in
  let valid := heartbeat ∧ version k ≠ "" ∧ recent in
  let out := getK8sStatus d env k in
  ((cachedVersion (now1 env) (now2 env) (lastSuccessInteraction env) k).2 = true ↔ valid)
  ∧ (valid → cachedVersion (now1 env) (now2 env) (lastSuccessInteraction env) k
             = (version k, true))
  ∧ (¬ heartbeat →
       cachedVersion (now1 env) (now2 env) (lastSuccessInteraction env) k = ("", false))
  ∧ (clientset_IsEnabled d = true → valid →
       out = {| k8sStatus := {| K8sStatus.State := StatusStateOk;
                                K8sStatus.Msg := version k;
                                K8sStatus.K8sAPIVersions := GetAPIGroups env |};
                k8sVersionCache' := k; queries := 0 |})
  ∧ (clientset_IsEnabled d = true → ¬ valid →
       ∀ v, ServerVersion env = inl v →
       out = {| k8sStatus := {| K8sStatus.State := StatusStateOk;
                                K8sStatus.Msg := (update (now3 env) v k).1;
                                K8sStatus.K8sAPIVersions := GetAPIGroups env |};
                k8sVersionCache' := {| version := (update (now3 env) v k).1;
                                       lastVersionCheck := now3 env |};
                queries := 1 |})
  ∧ (clientset_IsEnabled d = true → ¬ valid →
       ∀ err, ServerVersion env = inr err →
       out = {| k8sStatus := {| K8sStatus.State := StatusStateFailure;
                                K8sStatus.Msg := err;
                                K8sStatus.K8sAPIVersions := [] |};
                k8sVersionCache' := k; queries := 1 |})
  ∧ (clientset_IsEnabled d = false →
       out = {| k8sStatus := {| K8sStatus.State := StatusStateDisabled;
                                K8sStatus.Msg := "";
                                K8sStatus.K8sAPIVersions := [] |};
                k8sVersionCache' := k; queries := 0 |}).
Proof.
  intros heartbeat recent valid out. subst heartbeat recent valid out.
  pose proof (cachedVersion_spec (now1 env) (now2 env) (lastSuccessInteraction env) k)
    as (Hv & Hn).
  unfold k8sMinimumEventHeartbeat, k8sVersionCheckInterval in Hv, Hn.
  split; [| split; [| split; [| split; [| split; [| split]]]]].
  - split.
    + intros Hc.
      destruct (decide ((now1 env - lastSuccessInteraction env ≤ Minute)%Z
                        ∧ version k ≠ ""
                        ∧ (now2 env - lastVersionCheck k ≤ 15 * Minute)%Z)) as [Hd | Hd];
        [exact Hd |].
      rewrite (Hn Hd) in Hc. discriminate.
    + intros Hd. by rewrite (Hv Hd).
  - exact Hv.
  - intros Hh. apply Hn. tauto.
  - intros Hen Hd. unfold getK8sStatus. rewrite Hen, (Hv Hd). reflexivity.
  - intros Hen Hd v Hs. unfold getK8sStatus. rewrite Hen, (Hn Hd), Hs. reflexivity.
  - intros Hen Hd err Hs. unfold getK8sStatus. rewrite Hen, (Hn Hd), Hs. reflexivity.
  - intros Hdis. unfold getK8sStatus. rewrite Hdis. reflexivity.
Qed.

(** Witness of [version_memoizer]: the version was recorded five seconds
    ago but the last successful interaction is two minutes old; the cache
    is reported invalid. *)
Lemma version_memoizer_witness :
  cachedVersion (200 * Second) (200 * Second) (80 * Second)
    {| version := "1.29 (v1.29.0) [linux/amd64]";
       lastVersionCheck := (195 * Second)%Z |}
  = ("", false).
Proof.
  refine (proj1 (proj2 (proj2
    (version_memoizer daemon0
       {| now1 := 200 * Second; now2 := 200 * Second; now3 := 200 * Second;
          lastSuccessInteraction := 80 * Second; ServerVersion := inr "unused";
          GetAPIGroups := [] |}
       {| version := "1.29 (v1.29.0) [linux/amd64]";
          lastVersionCheck := 195 * Second |}))) _).
  vm_compute. intros H. apply H. reflexivity.
Defined.

(** ** The interval of the kubernetes probe *)

Lemma CalculateDuration_kubernetes f :
  (0 < f)%Z →
  (CalculateDuration (5 * Second) (2 * Minute) 2 f
   = Z.min (2 * Minute) (5 * Second * 2 ^ f))%Z.
Proof.
  intros Hf. unfold CalculateDuration.
  assert (2 ^ 1 ≤ 2 ^ f)%Z by (apply Z.pow_le_mono_r; lia).
  unfold Minute, Second. lia.
Qed.

(** C9.  While the kubernetes probe fails, its interval is five seconds
    times two to the number of failures, cut off at two minutes: it never
    leaves the range from five seconds to two minutes, it does not decrease
    when the number of failures grows, it doubles as long as the double
    stays below two minutes, and once at two minutes it stays there. *)
Theorem Interval_backoff (ClusterSizeDependantInterval : Z → Z) (f : Z) :
  (f > 0)%Z →
  let interval := Interval ClusterSizeDependantInterval in
  (interval f = Z.min (2 * Minute) (5 * Second * 2 ^ f))%Z
  ∧ (5 * Second ≤ interval f ≤ 2 * Minute)%Z
  ∧ (interval f ≤ interval (f + 1))%Z
  ∧ (interval (f + 1) = Z.min (2 * Minute) (2 * interval f))%Z
  ∧ (interval f = 2 * Minute → interval (f + 1) = 2 * Minute)%Z.
Proof.
  intros Hf interval. subst interval. unfold Interval.
  rewrite !bool_decide_eq_true_2 by lia.
  rewrite !CalculateDuration_kubernetes by lia.
  assert (E : (2 ^ (f + 1) = 2 * 2 ^ f)%Z) by (rewrite Z.pow_add_r by lia; lia).
  assert (2 ^ 1 ≤ 2 ^ f)%Z by (apply Z.pow_le_mono_r; lia).
  rewrite E. unfold Minute, Second. lia.
Qed.

(** Witness of [Interval_backoff]: after four failures the interval is
    eighty seconds, after five it is two minutes. *)
Lemma Interval_backoff_witness :
  (Interval (λ base, base) 4 = 80 * Second)%Z
  ∧ (Interval (λ base, base) 5 = 2 * Minute)%Z.
Proof.
  destruct (Interval_backoff (λ base, base) 4 ltac:(lia)) as (H4 & _ & _ & H5 & _).
  split; [exact H4 | exact H5].
Defined.

(** ** Update sinks *)

Lemma load_store_eq l c h : load l (store l c h) = c.
Proof. unfold load, store. by rewrite lookup_insert_eq. Qed.

Lemma load_store_ne l l' c h : l ≠ l' → load l' (store l c h) = load l' h.
Proof. intros Hne. unfold load, store. by rewrite lookup_insert_ne. Qed.

(** A sink leaves the configuration of the daemon alone. *)
Lemma sink_config p st d h d' h' :
  OnStatusUpdate p st d h = Some (d', h') →
  ciliumHealth d' = ciliumHealth d ∧ clientset_IsEnabled d' = clientset_IsEnabled d.
Proof.
  intros Hs. destruct p; unfold_sinks; sink_cases st;
    repeat (simplify_eq; try done;
            match goal with
            | H : context [match ?x with _ => _ end] |- _ => destruct x eqn:?
            end); simplify_eq; done.
Qed.

(** A sink changes no member of the response but the one it reports in. *)
Lemma sink_frame p st d h d' h' f :
  OnStatusUpdate p st d h = Some (d', h') →
  f ≠ target p →
  readField f (statusResponse d') h' = readField f (statusResponse d) h.
Proof.
  intros Hs Hf. destruct p; unfold_sinks; sink_cases st;
    repeat (simplify_eq; try done;
            match goal with
            | H : context [match ?x with _ => _ end] |- _ => destruct x eqn:?
            end); simplify_eq; destruct f; done.
Qed.

(** A populated field stays populated under the sinks of the other
    probes. *)
Lemma populated_frame p q st d h d' h' :
  OnStatusUpdate q st d h = Some (d', h') →
  q ≠ p → populated p d h → populated p d' h'.
Proof.
  intros Hs Hne Hp. destruct q; unfold_sinks; sink_cases st; sink_branches;
    destruct p; try done.
  all: unfold populated, readCiliumHealth in *; cbn in *.
  all: repeat match goal with H : Cluster _ = _ |- _ => rewrite H in * end.
  all: rewrite ?load_store_eq; done.
Qed.

(** An accepted result populates the field of its probe. *)
Lemma accepted_populated p st d h d' h' :
  OnStatusUpdate p st d h = Some (d', h') →
  accepted d p st = true → populated p d' h'.
Proof.
  intros Hs Ha. unfold accepted in Ha.
  destruct p; unfold_sinks; sink_cases st; cbn in Ha; try discriminate Ha;
    sink_branches.
  all: try match goal with
           | H1 : negb ?b = true, H2 : ?b = true |- _ =>
               rewrite H2 in H1; discriminate H1
           end.
  all: unfold populated, readCiliumHealth; cbn.
  all: repeat match goal with H : Cluster _ = _ |- _ => rewrite H in * end.
  all: rewrite ?load_store_eq; done.
Qed.

(** A skipped result leaves the daemon and the heap as they were.  The
    cilium-health sink is the exception, as it may install an empty cluster
    status first. *)
Lemma skipped_noop p st d h :
  p ≠ cilium_health → skipped d p st = true →
  OnStatusUpdate p st d h = Some (d, h).
Proof.
  intros Hp Hsk. unfold skipped in Hsk.
  destruct p; try (by destruct Hp); unfold_sinks; sink_cases st;
    cbn in Hsk; try discriminate Hsk; reflexivity.
Qed.

(** With a nil pointer of the expected type as result and a cluster status
    already present, the cluster sink dereferences nil. *)
Remark cluster_nil_result_panics :
  OnStatusUpdate cluster (value (DataClusterStatus None)) daemon_running heap_two
  = None.
Proof. reflexivity. Qed.

(** *** Errors *)

(** The claim C7 as it is worded fails for the cilium-health sink of a
    daemon without health subsystem: the error is not recorded, the
    [CiliumHealth] member stays nil. *)
Lemma cilium_health_error_dropped :
  status.Err timed_out = Some "no response from probe within 15 seconds"
  ∧ OnStatusUpdate cilium_health timed_out daemon_without_health ∅
    = Some (daemon_without_health, ∅)
  ∧ readCiliumHealth (statusResponse daemon_without_health) ∅ = None
  ∧ readCiliumHealth (statusResponse daemon_without_health) ∅
    ≠ Some (failure "no response from probe within 15 seconds").
Proof. repeat split; discriminate. Qed.

(** C7, amended.  A result that carries an error never makes a sink panic.
    The kvstore and kubernetes sinks store a Failure status with the text
    of the error; so does the cilium-health sink in the [CiliumHealth]
    member of the cluster status when the daemon has a health subsystem.
    Every other sink, and the cilium-health sink of a daemon without health
    subsystem, leaves the daemon and the heap as they were. *)
Theorem errors_recorded p st d h err :
  status.Err st = Some err →
  ∃ d' h',
    OnStatusUpdate p st d h = Some (d', h')
    ∧ (p = kvstore →
         d' = with_statusResponse (set_Kvstore (Some (failure err))) d ∧ h' = h)
    ∧ (p = kubernetes →
         d' = with_statusResponse
                (set_Kubernetes
                   (Some {| K8sStatus.State := StatusStateFailure;
                            K8sStatus.Msg := err;
                            K8sStatus.K8sAPIVersions := [] |})) d
         ∧ h' = h)
    ∧ (p = cilium_health → ciliumHealth d = true →
         readCiliumHealth (statusResponse d') h' = Some (failure err))
    ∧ (recordsErrors d p = false → d' = d ∧ h' = h).
Proof.
  intros He. destruct st as [x e]. cbn in He. subst e.
  destruct p; unfold_sinks; cbn [status.Err status.Data];
    try (eexists _, _; split; [reflexivity |]; repeat split; done).
  destruct (ciliumHealth d) eqn:Hch; cbn [negb].
  - destruct (Cluster (statusResponse d)) as [l|] eqn:Hcl;
      (eexists _, _; split; [reflexivity |];
       split; [done |]; split; [done |]; split;
       [| cbn; rewrite Hch; done]);
      intros _ _; unfold readCiliumHealth; cbn; rewrite ?Hcl;
      by rewrite load_store_eq.
  - eexists _, _. split; [reflexivity |]. repeat split; done.
Qed.

Lemma errors_recorded_witness :
  ∃ d' h',
    OnStatusUpdate kvstore timed_out daemon0 ∅ = Some (d', h')
    ∧ Kvstore (statusResponse d')
      = Some (failure "no response from probe within 15 seconds").
Proof.
  destruct (errors_recorded kvstore timed_out daemon0 ∅ _ eq_refl)
    as (d' & h' & Hs & Hkv & _).
  exists d', h'. split; [exact Hs |].
  destruct (Hkv eq_refl) as [-> _]. reflexivity.
Defined.

(** *** Payloads of an unexpected type *)

(** The claim C10 as it is worded fails in two ways.  For a result without
    payload that carries an error, the kvstore sink does write its field.
    For a result without payload and without error, the cilium-health sink
    of a daemon that has no cluster status yet writes the [Cluster]
    member. *)
Lemma nil_payload_written :
  expectedType kvstore (status.Data timed_out) = false
  ∧ Kvstore (statusResponse daemon0) = None
  ∧ (∃ d', OnStatusUpdate kvstore timed_out daemon0 ∅ = Some (d', ∅)
           ∧ Kvstore (statusResponse d')
             = Some (failure "no response from probe within 15 seconds"))
  ∧ expectedType cilium_health (status.Data (value DataNil)) = false
  ∧ Cluster (statusResponse daemon0) = None
  ∧ (∃ d' h', OnStatusUpdate cilium_health (value DataNil) daemon0 ∅ = Some (d', h')
              ∧ Cluster (statusResponse d') = Some (alloc ∅)
              ∧ h' !! alloc ∅ = Some ClusterStatus.zero).
Proof.
  split; [reflexivity |]. split; [reflexivity |].
  split; [eexists; split; reflexivity |].
  split; [reflexivity |]. split; [reflexivity |].
  eexists _, _. split; [reflexivity |]. split; [reflexivity |].
  apply lookup_insert_eq.
Qed.

(** C10, amended.  A payload that is nil or not of the type the sink
    expects never makes the sink panic.  When the result carries no error,
    the sink returns with the daemon and the heap as they were; the only
    exception is the cilium-health sink of a daemon with health subsystem
    and no cluster status yet, which installs an empty cluster status
    (whose [CiliumHealth] member is nil, as before).  When the result
    carries an error, the sinks that do not record errors return with the
    daemon and the heap as they were as well. *)
Theorem mismatched_payload p st d h :
  expectedType p (status.Data st) = false →
  (∃ d' h', OnStatusUpdate p st d h = Some (d', h'))
  ∧ (status.Err st = None →
       ¬ (p = cilium_health ∧ ciliumHealth d = true
          ∧ Cluster (statusResponse d) = None) →
       OnStatusUpdate p st d h = Some (d, h))
  ∧ (status.Err st = None →
       p = cilium_health → ciliumHealth d = true →
       Cluster (statusResponse d) = None →
       OnStatusUpdate p st d h
       = Some (with_statusResponse (set_Cluster (Some (alloc h))) d,
               store (alloc h) ClusterStatus.zero h)
       ∧ readCiliumHealth (set_Cluster (Some (alloc h)) (statusResponse d))
           (store (alloc h) ClusterStatus.zero h) = None)
  ∧ (is_Some (status.Err st) → recordsErrors d p = false →
       OnStatusUpdate p st d h = Some (d, h))
  ∧ (is_Some (status.Err st) → recordsErrors d p = true →
       ∀ d' h', OnStatusUpdate p st d h = Some (d', h') → populated p d' h').
Proof.
  intros Hty.
  assert (Hrec : is_Some (status.Err st) → recordsErrors d p = true →
            ∀ d' h', OnStatusUpdate p st d h = Some (d', h') → populated p d' h').
  { intros [err He] Hr d' h' Hs. eapply accepted_populated; [exact Hs |].
    unfold accepted. by rewrite He. }
  cut ((∃ d' h', OnStatusUpdate p st d h = Some (d', h'))
       ∧ (status.Err st = None →
            ¬ (p = cilium_health ∧ ciliumHealth d = true
               ∧ Cluster (statusResponse d) = None) →
            OnStatusUpdate p st d h = Some (d, h))
       ∧ (status.Err st = None →
            p = cilium_health → ciliumHealth d = true →
            Cluster (statusResponse d) = None →
            OnStatusUpdate p st d h
            = Some (with_statusResponse (set_Cluster (Some (alloc h))) d,
                    store (alloc h) ClusterStatus.zero h)
            ∧ readCiliumHealth (set_Cluster (Some (alloc h)) (statusResponse d))
                (store (alloc h) ClusterStatus.zero h) = None)
       ∧ (is_Some (status.Err st) → recordsErrors d p = false →
            OnStatusUpdate p st d h = Some (d, h))).
  { intros (H1 & H2 & H3 & H4).
    split; [exact H1 | split; [exact H2 | split; [exact H3 | split; [exact H4 |]]]].
    exact Hrec. }
  clear Hrec.
  destruct p; unfold_sinks; sink_cases st; try discriminate Hty.
  all: try (split; [by eexists _, _ |];
            split; [done |]; split; [done |]; intros [? ?]; done).
  all: cbn [recordsErrors]; destruct (ciliumHealth d) eqn:Hch; cbn [negb];
       destruct (Cluster (statusResponse d)) as [live|] eqn:Hcl.
  all: split; [by eexists _, _ |].
  all: split; [intros He Hn; first [done | exfalso; apply Hn; done] |].
  all: split; [intros He _ Ht Hc;
               first [done
                     | split; [done |];
                       unfold readCiliumHealth; cbn; by rewrite load_store_eq] |].
  all: intros [? ?] Hr; done.
Qed.

Lemma mismatched_payload_witness :
  OnStatusUpdate ipam (value (DataStatus (Some ok_status))) daemon0 ∅
  = Some (daemon0, ∅).
Proof.
  refine (proj1 (proj2 (mismatched_payload ipam (value (DataStatus (Some ok_status)))
                          daemon0 ∅ eq_refl)) eq_refl _).
  intros (H & _). discriminate H.
Defined.

(** *** Which sink writes which member *)

Lemma writes_target p f : writes p f → f = target p.
Proof.
  intros (st & d & h & d' & h' & Hs & Hne).
  destruct (decide (f = target p)) as [| Hf]; [assumption |].
  exfalso. apply Hne. symmetry. by eapply sink_frame.
Qed.

Lemma target_written p : writes p (target p).
Proof.
  exists (sample_result p), daemon0, sample_heap.
  destruct (OnStatusUpdate p (sample_result p) daemon0 sample_heap)
    as [[d' h']|] eqn:Hs; [| destruct p; discriminate Hs].
  exists d', h'. split; [reflexivity |].
  destruct p; vm_compute in Hs; simplify_eq; vm_compute; discriminate.
Qed.

(** The claim C4 as it is worded fails: the sinks of the two distinct
    probes cluster and cilium-health both write the [Cluster] member. *)
Lemma cluster_field_shared :
  cluster ≠ cilium_health ∧ writes cluster FCluster ∧ writes cilium_health FCluster.
Proof.
  split; [discriminate |].
  split; [apply (target_written cluster) | apply (target_written cilium_health)].
Qed.

Lemma cluster_sink_keeps_health st d h d' h' :
  is_Some (Cluster (statusResponse d)) →
  OnStatusUpdate cluster st d h = Some (d', h') →
  readCiliumHealth (statusResponse d') h' = readCiliumHealth (statusResponse d) h.
Proof.
  intros [live Hl] Hs. unfold_sinks. sink_cases st; rewrite ?Hl in Hs; simplify_eq;
    try reflexivity.
  unfold readCiliumHealth. cbn. rewrite Hl. by rewrite load_store_eq.
Qed.

Lemma cilium_health_sink_keeps_Self st d h d' h' :
  OnStatusUpdate cilium_health st d h = Some (d', h') →
  ClusterStatus.Self (default ClusterStatus.zero (readCluster (statusResponse d') h'))
  = ClusterStatus.Self (default ClusterStatus.zero (readCluster (statusResponse d) h)).
Proof.
  intros Hs. unfold_sinks.
  destruct (ciliumHealth d); cbn [negb] in Hs; [| by simplify_eq].
  unfold readCluster.
  destruct (Cluster (statusResponse d)) as [live|] eqn:Hl;
    sink_cases st; simplify_eq; cbn; rewrite ?Hl; cbn;
    rewrite ?load_store_eq; reflexivity.
Qed.

(** C4, amended.  Every sink writes exactly one member of the response,
    its target.  Two distinct probes write the same member only if they
    are cluster and cilium-health, which both write [Cluster]; there the
    cluster sink keeps the [CiliumHealth] member of a cluster status that
    is already present, and the cilium-health sink keeps the [Self]
    member. *)
Theorem sinks_disjoint :
  (∀ p f, writes p f ↔ f = target p)
  ∧ (∀ p q f, p ≠ q → writes p f → writes q f →
       f = FCluster
       ∧ (p = cluster ∧ q = cilium_health ∨ p = cilium_health ∧ q = cluster))
  ∧ (∀ st d h d' h',
       is_Some (Cluster (statusResponse d)) →
       OnStatusUpdate cluster st d h = Some (d', h') →
       readCiliumHealth (statusResponse d') h'
       = readCiliumHealth (statusResponse d) h)
  ∧ (∀ st d h d' h',
       OnStatusUpdate cilium_health st d h = Some (d', h') →
       ClusterStatus.Self
         (default ClusterStatus.zero (readCluster (statusResponse d') h'))
       = ClusterStatus.Self
           (default ClusterStatus.zero (readCluster (statusResponse d) h))).
Proof.
  split; [| split; [| split]].
  - intros p f. split; [apply writes_target | intros ->; apply target_written].
  - intros p q f Hne Hp Hq.
    apply writes_target in Hp, Hq. subst f.
    destruct p, q; try discriminate Hq; try (by destruct Hne); auto.
  - apply cluster_sink_keeps_health.
  - apply cilium_health_sink_keeps_Self.
Qed.

(** Witness of [sinks_disjoint]: the kvstore sink writes [Kvstore], and no
    member is written by both the kvstore sink and the ipam sink. *)
Lemma sinks_disjoint_witness :
  writes kvstore FKvstore
  ∧ ∀ f, ¬ (writes kvstore f ∧ writes ipam f).
Proof.
  destruct sinks_disjoint as (Htarget & Hpair & _).
  split.
  - apply Htarget. reflexivity.
  - intros f [Hk Hi].
    destruct (Hpair kvstore ipam f ltac:(discriminate) Hk Hi) as [_ [[H _] | [H _]]];
      discriminate H.
Defined.

(** ** The first round of the collector *)

Lemma accepted_config d1 d2 p st :
  ciliumHealth d1 = ciliumHealth d2 → accepted d1 p st = accepted d2 p st.
Proof. intros E. unfold accepted, recordsErrors. by rewrite E. Qed.

Lemma run_frame cycles p : ∀ d h d' h',
  run cycles d h = Some (d', h') →
  lastResult p cycles = None →
  populated p d h → populated p d' h'.
Proof.
  induction cycles as [| [q sq] rest IH]; intros d h d' h' Hr Hl Hp; cbn in *.
  - by simplify_eq.
  - destruct (OnStatusUpdate q sq d h) as [[d1 h1]|] eqn:Hs; [| discriminate].
    destruct (lastResult p rest) eqn:Hrest; [discriminate |].
    case_bool_decide as Hq; [discriminate |].
    eapply IH; [eassumption | reflexivity |].
    by eapply populated_frame.
Qed.

Lemma run_last_accepted cycles p st : ∀ d h d' h',
  run cycles d h = Some (d', h') →
  lastResult p cycles = Some st →
  accepted d p st = true → populated p d' h'.
Proof.
  induction cycles as [| [q sq] rest IH]; intros d h d' h' Hr Hl Ha; cbn in *.
  - discriminate.
  - destruct (OnStatusUpdate q sq d h) as [[d1 h1]|] eqn:Hs; [| discriminate].
    destruct (sink_config _ _ _ _ _ _ Hs) as [Hc _].
    destruct (lastResult p rest) as [st'|] eqn:Hrest.
    + simplify_eq. eapply IH; [eassumption | reflexivity |].
      by rewrite (accepted_config d1 d).
    + case_bool_decide as Hq; [| discriminate]. simplify_eq.
      eapply run_frame; [eassumption | assumption |].
      by eapply accepted_populated.
Qed.

Lemma lastResult_is_Some cycles p :
  p ∈ cycles.*1 → is_Some (lastResult p cycles).
Proof.
  induction cycles as [| [q sq] rest IH]; cbn; intros Hin.
  - by apply elem_of_nil in Hin.
  - destruct (lastResult p rest); [by eexists |].
    apply elem_of_cons in Hin as [-> | Hin].
    + rewrite bool_decide_eq_true_2 by reflexivity. by eexists.
    + destruct (IH Hin) as [? ?]. discriminate.
Qed.

Lemma firstRunDone_all cycles p : firstRunDone cycles = true → p ∈ cycles.*1.
Proof.
  unfold firstRunDone. rewrite forallb_forall. intros Hall.
  pose proof (Hall p) as Hp. rewrite bool_decide_eq_true in Hp.
  apply Hp. destruct p; cbn; tauto.
Qed.

Lemma skipped_config d1 d2 p st :
  ciliumHealth d1 = ciliumHealth d2 → skipped d1 p st = skipped d2 p st.
Proof. intros E. unfold skipped, recordsErrors. by rewrite E. Qed.

Lemma target_inj p q :
  p ≠ cluster → p ≠ cilium_health → q ≠ p → target q ≠ target p.
Proof. intros Hc Hh Hne E. destruct p, q; try discriminate E; congruence. Qed.

Lemma run_skipped cycles p :
  p ≠ cluster → p ≠ cilium_health →
  ∀ d h d' h',
    run cycles d h = Some (d', h') →
    (∀ st, (p, st) ∈ cycles → skipped d p st = true) →
    readField (target p) (statusResponse d') h'
    = readField (target p) (statusResponse d) h.
Proof.
  intros Hc Hh.
  induction cycles as [| [q sq] rest IH]; intros d h d' h' Hr Hsk; cbn in Hr.
  - by simplify_eq.
  - destruct (OnStatusUpdate q sq d h) as [[d1 h1]|] eqn:Hs; [| discriminate].
    destruct (sink_config _ _ _ _ _ _ Hs) as [Hcfg _].
    rewrite (IH d1 h1 d' h' Hr).
    + destruct (decide (q = p)) as [-> | Hne].
      * rewrite skipped_noop in Hs; [by simplify_eq | assumption |].
        apply Hsk, elem_of_cons. by left.
      * eapply sink_frame; [exact Hs |]. apply not_eq_sym. by apply target_inj.
    + intros st Hin. rewrite (skipped_config d1 d) by assumption.
      apply Hsk, elem_of_cons. by right.
Qed.

(** The claim C3 as it is worded fails on a first round of a daemon
    without L7 proxy in which the result of the ipam probe carries an error:
    every probe has completed a cycle, and the [Ipam] and [Proxy] members
    are still nil. *)
Lemma first_round_leaves_fields_unset :
  firstRunDone first_round = true
  ∧ ∃ d' h', run first_round daemon0 sample_heap = Some (d', h')
             ∧ Ipam (statusResponse d') = None
             ∧ Proxy (statusResponse d') = None
             ∧ ¬ populated ipam d' h'
             ∧ ¬ populated l7_proxy d' h'.
Proof.
  split; [reflexivity |].
  destruct (run first_round daemon0 sample_heap) as [[d' h']|] eqn:Hr;
    vm_compute in Hr; [| discriminate Hr].
  exists d', h'. split; [reflexivity |]. simplify_eq.
  repeat split; intros [? H]; discriminate H.
Qed.

(** C3, amended.  After a history in which every registered probe has
    completed at least one cycle, each probe has a most recent result, and
    the field of the probe is populated whenever that result was accepted
    by its sink: an error at the kvstore, kubernetes or (with a health
    subsystem) cilium-health sink, or an error-free non-nil value of the
    expected type.  The field of a probe all of whose results were skipped
    by its sink is as it was before the history (for the probes other than
    cluster and cilium-health, which share a member). *)
Theorem first_run_populates cycles d h d' h' :
  run cycles d h = Some (d', h') →
  firstRunDone cycles = true →
  ∀ p,
    (∃ st, lastResult p cycles = Some st
           ∧ (accepted d p st = true → populated p d' h'))
    ∧ (p ≠ cluster → p ≠ cilium_health →
       (∀ st, (p, st) ∈ cycles → skipped d p st = true) →
       readField (target p) (statusResponse d') h'
       = readField (target p) (statusResponse d) h).
Proof.
  intros Hr Hdone p. split.
  - destruct (lastResult_is_Some cycles p (firstRunDone_all _ _ Hdone)) as [st Hl].
    exists st. split; [assumption |]. intros Ha.
    by eapply run_last_accepted.
  - intros Hc Hh Hsk. by eapply run_skipped.
Qed.

Lemma first_run_populates_witness :
  ∃ d' h', run first_round daemon0 sample_heap = Some (d', h')
           ∧ populated kvstore d' h'.
Proof.
  destruct (run first_round daemon0 sample_heap) as [[d' h']|] eqn:Hr;
    [| vm_compute in Hr; discriminate Hr].
  exists d', h'. split; [reflexivity |].
  destruct (first_run_populates first_round daemon0 sample_heap d' h' Hr eq_refl kvstore)
    as ((st & Hl & Hp) & _).
  apply Hp. vm_compute in Hl. simplify_eq. reflexivity.
Defined.

(** ** Isolation of a snapshot *)

Lemma alloc_fresh h : alloc h ∉ dom h.
Proof. unfold alloc. apply is_fresh. Qed.

Lemma alloc_ne ls c h : h !! ls = Some c → alloc h ≠ ls.
Proof.
  intros Hl E. apply (alloc_fresh h). rewrite E. apply elem_of_dom. by eexists.
Qed.

(** A sink does not touch a cell that is neither the live cluster status
    nor its result. *)
Lemma sink_apart ls c p st d h d' h' :
  apart ls c d h →
  (p = cluster → ∀ l, status.Data st = DataClusterStatus (Some l) → l ≠ ls) →
  OnStatusUpdate p st d h = Some (d', h') →
  apart ls c d' h'.
Proof.
  intros [Hc Hlive] Hres Hs. pose proof (alloc_ne _ _ _ Hc) as Hfresh.
  destruct p; unfold_sinks; sink_cases st; sink_branches;
    try (split; assumption).
  all: unfold apart, store; cbn.
  all: try match goal with
           | H : Cluster _ = Some _ |- _ => rewrite H in *
           end.
  all: try (specialize (Hres eq_refl _ eq_refl)).
  all: split; [rewrite ?lookup_insert_ne; [assumption | congruence ..]
              | congruence].
Qed.

Lemma run_apart ls c cycles : ∀ d h d' h',
  apart ls c d h →
  (∀ st l, (cluster, st) ∈ cycles →
           status.Data st = DataClusterStatus (Some l) → l ≠ ls) →
  run cycles d h = Some (d', h') →
  apart ls c d' h'.
Proof.
  induction cycles as [| [p st] rest IH]; intros d h d' h' Ha Hres Hr; cbn in Hr.
  - by simplify_eq.
  - destruct (OnStatusUpdate p st d h) as [[d1 h1]|] eqn:Hs; [| discriminate].
    eapply IH; [| | eassumption].
    + eapply sink_apart; [eassumption | | eassumption].
      intros -> l Hd. eapply Hres; [| eassumption]. apply elem_of_cons. by left.
    + intros sq l Hin. eapply Hres. apply elem_of_cons. right. exact Hin.
Qed.

(** The members of a response other than [Cluster] do not depend on the
    heap. *)
Lemma readField_heap f sr h h' :
  readCluster sr h = readCluster sr h' → readField f sr h = readField f sr h'.
Proof. intros E. destruct f; cbn; by rewrite ?E. Qed.

(** What the full snapshot is. *)
Lemma getStatus_full ver staleProbes d h req :
  let sr := (getStatus ver staleProbes d h false req).1 in
  let h1 := (getStatus ver staleProbes d h false req).2 in
  match Cluster (statusResponse d) with
  | Some live =>
      Cluster sr = Some (alloc h) ∧ h1 = store (alloc h) (load live h) h
  | None => Cluster sr = None ∧ h1 = h
  end
  ∧ ∀ f, f ≠ FStale → f ≠ FCilium → f ≠ FCluster →
         readField f sr h1 = readField f (statusResponse d) h.
Proof.
  unfold getStatus, DeepCopy.
  destruct (Cluster (statusResponse d)) as [live|] eqn:Hl; cbn.
  - split; [done |]. intros f ? ? ?. destruct f; done.
  - rewrite Hl. split; [done |]. intros f ? ? ?. destruct f; done.
Qed.

(** What the brief snapshot allocates. *)
Lemma getStatus_brief_cell ver staleProbes d h req :
  Cluster (getStatus ver staleProbes d h true req).1 = Some (alloc h)
  ∧ is_Some ((getStatus ver staleProbes d h true req).2 !! alloc h)
  ∧ ∀ l, l ≠ alloc h → (getStatus ver staleProbes d h true req).2 !! l = h !! l.
Proof.
  unfold getStatus, store. cbn. split; [done |]. split.
  - rewrite lookup_insert_eq. by eexists.
  - intros l Hne. by rewrite lookup_insert_ne.
Qed.

(** C8.  A snapshot does not alias the live store: the cluster status it
    points to is a newly allocated cell, different from the live one.  A
    full snapshot holds, member for member, the content of the live store
    at the time of the call (the stale map and the verdict apart).  After
    any sequence of later sink calls, each one an atomic step, every member
    of the snapshot reads as it did when the snapshot was returned. *)
Theorem snapshot_isolated ver (staleProbes : gmap string Z) d h brief req cycles d' h' :
  let sr := (getStatus ver staleProbes d h brief req).1 in
  let h1 := (getStatus ver staleProbes d h brief req).2 in
  allocated d h →
  foreignResults sr cycles →
  run cycles d h1 = Some (d', h') →
  (∀ f, readField f sr h' = readField f sr h1)
  ∧ (∀ l, Cluster sr = Some l →
          (l ∉ dom h) ∧ Cluster (statusResponse d) ≠ Some l
          ∧ Cluster (statusResponse d') ≠ Some l)
  ∧ (brief = false →
     ∀ f, f ≠ FStale → f ≠ FCilium →
          readField f sr h1 = readField f (statusResponse d) h).
Proof.
  intros sr h1 Halloc Hforeign Hr.
  assert (Hcell : ∀ l, Cluster sr = Some l →
            l = alloc h ∧ is_Some (h1 !! l) ∧ ∀ l', l' ≠ l → h1 !! l' = h !! l').
  { intros l Hl. subst sr h1. destruct brief.
    - destruct (getStatus_brief_cell ver staleProbes d h req) as (Hc & Hs & Ho).
      rewrite Hc in Hl. by simplify_eq.
    - destruct (getStatus_full ver staleProbes d h req) as [Hc _].
      destruct (Cluster (statusResponse d)) as [live|]; destruct Hc as [Hc ->];
        rewrite Hc in Hl; simplify_eq.
      unfold store. split; [done |]. split.
      + rewrite lookup_insert_eq. by eexists.
      + intros l' Hne. by rewrite lookup_insert_ne. }
  assert (Hlive : ∀ l, Cluster sr = Some l → Cluster (statusResponse d) ≠ Some l).
  { intros l Hl Hd. destruct (Hcell l Hl) as (-> & _).
    apply (alloc_fresh h). by apply Halloc. }
  assert (Hap : ∀ l, Cluster sr = Some l →
            ∃ c, apart l c d h1 ∧ apart l c d' h').
  { intros l Hl. destruct (Hcell l Hl) as (_ & [c Hc] & _).
    exists c. assert (apart l c d h1) as Ha by (split; [assumption | by apply Hlive]).
    split; [assumption |].
    eapply run_apart; [exact Ha | | exact Hr].
    intros st l' Hin Hd ->. by eapply Hforeign. }
  split; [| split].
  - intros f. apply readField_heap. unfold readCluster.
    destruct (Cluster sr) as [l|] eqn:Hl; [| reflexivity].
    destruct (Hap l eq_refl) as (c & [Hc1 _] & [Hc2 _]).
    unfold load. by rewrite Hc1, Hc2.
  - intros l Hl. destruct (Hcell l Hl) as (-> & _).
    split; [apply alloc_fresh |]. split; [by apply Hlive |].
    destruct (Hap _ Hl) as (c & _ & [_ Hne]). exact Hne.
  - intros -> f Hst Hci. subst sr h1.
    destruct (getStatus_full ver staleProbes d h req) as [Hc Hf].
    destruct (decide (f = FCluster)) as [-> | Hne]; [| by apply Hf].
    unfold readField, readCluster.
    destruct (Cluster (statusResponse d)) as [live|]; destruct Hc as [Hc1 Hc2];
      rewrite Hc1, ?Hc2; [| reflexivity].
    by rewrite load_store_eq.
Qed.

(** The live store, in contrast, is mutated in place: the response held
    by the daemon reads differently after a cilium-health update although
    no member of it was assigned. *)
Remark live_store_mutated_in_place :
  ∃ d' h', OnStatusUpdate cilium_health timed_out daemon_running heap_two = Some (d', h')
           ∧ statusResponse d' = statusResponse daemon_running
           ∧ readField FCluster (statusResponse daemon_running) h'
             ≠ readField FCluster (statusResponse daemon_running) heap_two.
Proof.
  eexists _, _. split; [reflexivity |]. split; [reflexivity |].
  vm_compute. discriminate.
Qed.

Lemma snapshot_isolated_witness :
  ∃ d' h',
    run later_updates daemon_running
      (getStatus ver0 ∅ daemon_running heap_two false false).2 = Some (d', h')
    ∧ readField FCluster (getStatus ver0 ∅ daemon_running heap_two false false).1 h'
      = VCluster (Some {| ClusterStatus.Self := "default/node-1";
                          ClusterStatus.CiliumHealth := Some ok_status |})
    ∧ readField FCluster (statusResponse d') h'
      = VCluster (Some {| ClusterStatus.Self := "default/node-1";
                          ClusterStatus.CiliumHealth :=
                            Some (failure "no response from probe within 15 seconds") |}).
Proof.
  destruct (run later_updates daemon_running
              (getStatus ver0 ∅ daemon_running heap_two false false).2)
    as [[d' h']|] eqn:Hr; [| vm_compute in Hr; discriminate Hr].
  exists d', h'. split; [reflexivity |].
  assert (Ha : allocated daemon_running heap_two).
  { intros l Hl. vm_compute in Hl. simplify_eq. apply elem_of_dom. by eexists. }
  assert (Hf : foreignResults (getStatus ver0 ∅ daemon_running heap_two false false).1
                 later_updates).
  { intros st l Hin Hd Hc. vm_compute in Hc. simplify_eq.
    unfold later_updates in Hin. rewrite !elem_of_cons in Hin.
    destruct Hin as [Hin | [Hin | [Hin | Hin]]]; simplify_eq;
      try discriminate Hd; by apply elem_of_nil in Hin. }
  destruct (snapshot_isolated ver0 ∅ daemon_running heap_two false false
              later_updates d' h' Ha Hf Hr) as (Hsame & _ & _).
  split.
  - rewrite Hsame. reflexivity.
  - vm_compute in Hr. simplify_eq. reflexivity.
Defined.
